(** * Phaser.Geom.Mesh.Model: vertex buffer, dirty cache and transform recompute

    A shallow embedding of [src/geom/mesh/Model.js].

    JavaScript numbers are IEEE-754 binary64 values and are embedded as
    Rocq's primitive [float]; [Float32Array] storage rounds to binary32.
    Integer-valued counters and array indices ([vertexCount], vertex and
    face indices) are embedded as [Z]: they start at 0 and move in steps
    of 1, where binary64 arithmetic is exact below 2^53. *)

From Stdlib Require Import ZArith Bool Lia String.
From Stdlib Require Import Floats.PrimFloat Floats.SpecFloat Floats.FloatOps
  Floats.FloatAxioms.
From stdpp Require Import base list.

Local Open Scope Z_scope.

(** ** JavaScript numbers *)

Module JS.

(** A primitive value read from an array slot: a number, or [undefined]
    when the slot does not exist. *)
Inductive prim : Type :=
| Undefined
| Num (f : float).

(** [ToNumber]: [undefined] converts to NaN. *)
Definition to_number (p : prim) : float :=
  match p with
  | Undefined => nan
  | Num f => f
  end.

(** [a !== b] on numbers: the negation of IEEE equality, so
    [NaN !== NaN] holds and [0 !== -0] does not. *)
Definition strict_ne (a b : float) : bool := negb (PrimFloat.eqb a b).

(** [Math.fround]: round a binary64 value to the nearest binary32 value,
    ties to even, as a [Float32Array] store does. *)
Definition fround (x : float) : float :=
  match Prim2SF x with
  | S754_finite s m e => SF2Prim (binary_round 24 128 s m e)
  | _ => x
  end.

(** The binary64 values that a [Float32Array] slot can hold exactly. *)
Definition is_float32 (x : float) : Prop := fround x = x.

(** The integer [n] as a JavaScript number (exact below 2^53). *)
Definition of_int (n : Z) : float :=
  match n with
  | Z0 => zero
  | Zpos _ => of_uint63 (Uint63Axioms.of_Z n)
  | Zneg _ => PrimFloat.opp (of_uint63 (Uint63Axioms.of_Z (Z.opp n)))
  end.

(** [a[i]] on an array of numbers: [undefined] outside [0 .. length). *)
Definition array_get (a : list float) (i : Z) : prim :=
  if (i <? 0) then Undefined
  else match a !! Z.to_nat i with
       | Some f => Num f
       | None => Undefined
       end.

(** An optional argument documented as [number|number[]]. *)
Inductive arg : Type :=
| ArgUndefined
| ArgNumber (f : float)
| ArgArray (items : list float).

(** [Array.isArray(a)] *)
Definition isArray (a : arg) : bool :=
  match a with
  | ArgArray _ => true
  | _ => false
  end.

(** [a[i]] when [a] is an array. *)
Definition arg_get (a : arg) (i : Z) : prim :=
  match a with
  | ArgArray items => array_get items i
  | _ => Undefined
  end.

(** [a] itself when it is a single value. *)
Definition arg_value (a : arg) : prim :=
  match a with
  | ArgNumber f => Num f
  | _ => Undefined
  end.

End JS.

(** ** Float32Array *)

Module Float32Array.

(** [new Float32Array(new ArrayBuffer(bytes))]: [bytes / 4] zeroed slots. *)
Definition make (slots : nat) : list float := replicate slots zero.

(** [view[i]]: the stored number, [undefined] outside [0 .. length). *)
Definition get (view : list float) (i : Z) : JS.prim :=
  if (i <? 0) then JS.Undefined
  else match view !! Z.to_nat i with
       | Some f => JS.Num f
       | None => JS.Undefined
       end.

(** [view[i] = x]: stores [fround x]; a write outside [0 .. length) is
    discarded without error. *)
Definition set (view : list float) (i : Z) (x : float) : list float :=
  if (i <? 0) then view
  else <[Z.to_nat i := JS.fround x]> view.

End Float32Array.

(** ** ArrayBuffer *)

Module ArrayBuffer.

(** The largest byte length the engine allocates for [new ArrayBuffer]: it
    differs between engines and machines, so it is a parameter. *)
Class Limit : Type := maxByteLength : Z.

(** [new ArrayBuffer(length)] returns a buffer: [ToIndex] accepts the
    lengths [0 .. 2^53 - 1], and the engine allocates up to
    [maxByteLength] bytes.  Every other length throws a RangeError. *)
Definition accepts `{Limit} (length : Z) : bool :=
  (0 <=? length) && (length <=? 9007199254740991) && (length <=? maxByteLength).

End ArrayBuffer.

(** ** Thrown values and completions *)

Inductive exn : Type :=
| Error (message : string)
| TypeError (message : string)
| RangeError (message : string).

(** The outcome of running a statement list: it completes normally with a
    value, or abruptly with a thrown value. *)
Inductive completion (T : Type) : Type :=
| Normal (value : T)
| Throw (e : exn).

Arguments Normal {T} value.
Arguments Throw {T} e.

(** Statements that read and write the receiver [this] and may throw.  A
    throw keeps every write made before it: there is no roll-back. *)
Definition Eff (S T : Type) : Type := S -> completion T * S.

Definition ret {S T} (v : T) : Eff S T := fun s => (Normal v, s).

Definition throw {S T} (e : exn) : Eff S T := fun s => (Throw e, s).

Definition bind {S T U} (c : Eff S T) (k : T -> Eff S U) : Eff S U :=
  fun s =>
    match c s with
    | (Normal v, s') => k v s'
    | (Throw e, s') => (Throw e, s')
    end.

Notation "'do' x <- c ; k" := (bind c (fun x => k))
  (at level 10, x name, c at level 100, k at level 200).
Notation "'run' c ; k" := (bind c (fun _ => k))
  (at level 10, c at level 100, k at level 200).

(** A [for] loop whose iterations are known on entry. *)
Fixpoint for_each {S T} (items : list T) (body : T -> Eff S unit) : Eff S unit :=
  match items with
  | [] => ret tt
  | item :: rest => run body item; for_each rest body
  end.

(** ** Collaborating classes

    [Vector3], [Quaternion], [Matrix4], [AnimationState], [Vertex] and
    [Face] are required by [Model.js] from other files. *)

Module Vector3.

Record t : Type := mk { x : float; y : float; z : float }.

(** Modelled from the spec: the [Vector3] constructor, which is outside the
    given source; the spec's Transform State keeps a position and a scale
    vec3 holding the three components they were built from. *)
Definition create (x y z : float) : t := mk x y z.

End Vector3.

Module Quaternion.

Record t : Type := mk { x : float; y : float; z : float; w : float }.

(** The identity rotation. *)
Definition identity : t := mk 0 0 0 1.

(** [new Quaternion()].  The class is outside the given source, so the
    quaternion its constructor yields without arguments is a parameter of
    the Model. *)
Class Default : Type := create : t.

End Quaternion.

Module Matrix4.

(** The [Matrix4] methods that [Model.js] calls.  Each method mutates its
    receiver, so it is a function from the receiver (first argument) to
    the receiver afterwards. *)
Class Ops (M : Type) : Type := {
  create : M;
  fromRotationTranslation : M -> Quaternion.t -> Vector3.t -> M;
  scale : M -> Vector3.t -> M;
  copy : M -> M -> M;
  invert : M -> M;
  transpose : M -> M
}.

End Matrix4.

Module AnimationState.

(** [new AnimationState(parent)] and [anims.update(time, delta)].  The
    animation subsystem keeps its own state and is advanced on every tick;
    it does not write the geometry or transform fields of its parent. *)
Class Ops (A : Type) : Type := {
  create : A;
  update : A -> float -> float -> A
}.

End AnimationState.

(** The object [new Vertex(x, y, z, u, v, color, alpha)] builds in
    [addVertices]: it holds the constructor's arguments. *)
Module Vertex.

Record t : Type := mk {
  x : JS.prim; y : JS.prim; z : JS.prim;
  u : JS.prim; v : JS.prim;
  color : JS.prim; alpha : JS.prim
}.

End Vertex.

(** The object [new Face(vert1, vert2, vert3)] builds in [addVertices]; an
    argument is [None] when the array read that produced it was out of
    range ([undefined]). *)
Module Face.

Record t : Type := mk {
  vertex1 : option Vertex.t;
  vertex2 : option Vertex.t;
  vertex3 : option Vertex.t
}.

End Face.

(** ** Objects returned by the read accessors *)

(** The object literal returned by [getVertex]. *)
Module VertexObject.

Record t : Type := mk {
  x : JS.prim; y : JS.prim; z : JS.prim;
  u : JS.prim; v : JS.prim;
  normalX : JS.prim; normalY : JS.prim; normalZ : JS.prim;
  alpha : JS.prim
}.

End VertexObject.

(** The object literal returned by [getFace].  A vertex property holds
    whatever value the literal puts there: a vertex object or a number. *)
Module FaceObject.

Inductive slot : Type :=
| Vert (vertex : VertexObject.t)
| Number (f : float).

Record t : Type := mk {
  vertex1 : slot;
  vertex2 : slot;
  vertex3 : slot;
  isCounterClockwise : bool
}.

End FaceObject.

(** ** The Model *)

(** [dirtyCache]: an array of eleven numbers, always read and written at
    constant indices; [slot k] is [dirtyCache[k]].
    cache structure = position | rotation | scale | verts count *)
Record DirtyCache : Type := mkDirtyCache {
  slot0 : float; slot1 : float; slot2 : float;
  slot3 : float; slot4 : float; slot5 : float; slot6 : float;
  slot7 : float; slot8 : float; slot9 : float;
  slot10 : Z
}.

(** The fields of a Model that the functions below read or write.
    [vertices] and [faces] are the properties [addVertices] reads from
    [this]; [None] is [undefined]. *)
Record Model (M A : Type) : Type := mkModel {
  anims : A;
  vertexSize : Z;
  vertexCount : Z;
  vertexViewF32 : list float;
  position : Vector3.t;
  scale : Vector3.t;
  rotation : Quaternion.t;
  dirtyCache : DirtyCache;
  normalMatrix : M;
  transformMatrix : M;
  vertices : option (list Vertex.t);
  faces : option (list Face.t)
}.

Arguments mkModel {M A}.
Arguments anims {M A}.
Arguments vertexSize {M A}.
Arguments vertexCount {M A}.
Arguments vertexViewF32 {M A}.
Arguments position {M A}.
Arguments scale {M A}.
Arguments rotation {M A}.
Arguments dirtyCache {M A}.
Arguments normalMatrix {M A}.
Arguments transformMatrix {M A}.
Arguments vertices {M A}.
Arguments faces {M A}.

Section ModelMethods.

Context {M A : Type} {MatrixOps : Matrix4.Ops M} {AnimationOps : AnimationState.Ops A}
  {NewQuaternion : Quaternion.Default} {BufferLimit : ArrayBuffer.Limit}.

(** *** Assignments to one property of [this] *)

Definition with_anims (this : Model M A) (a : A) : Model M A :=
  mkModel a (vertexSize this) (vertexCount this) (vertexViewF32 this)
    (position this) (scale this) (rotation this) (dirtyCache this)
    (normalMatrix this) (transformMatrix this) (vertices this) (faces this).

Definition with_vertexCount (this : Model M A) (n : Z) : Model M A :=
  mkModel (anims this) (vertexSize this) n (vertexViewF32 this)
    (position this) (scale this) (rotation this) (dirtyCache this)
    (normalMatrix this) (transformMatrix this) (vertices this) (faces this).

Definition with_vertexViewF32 (this : Model M A) (view : list float) : Model M A :=
  mkModel (anims this) (vertexSize this) (vertexCount this) view
    (position this) (scale this) (rotation this) (dirtyCache this)
    (normalMatrix this) (transformMatrix this) (vertices this) (faces this).

Definition with_position (this : Model M A) (p : Vector3.t) : Model M A :=
  mkModel (anims this) (vertexSize this) (vertexCount this) (vertexViewF32 this)
    p (scale this) (rotation this) (dirtyCache this)
    (normalMatrix this) (transformMatrix this) (vertices this) (faces this).

Definition with_scale (this : Model M A) (s : Vector3.t) : Model M A :=
  mkModel (anims this) (vertexSize this) (vertexCount this) (vertexViewF32 this)
    (position this) s (rotation this) (dirtyCache this)
    (normalMatrix this) (transformMatrix this) (vertices this) (faces this).

Definition with_rotation (this : Model M A) (q : Quaternion.t) : Model M A :=
  mkModel (anims this) (vertexSize this) (vertexCount this) (vertexViewF32 this)
    (position this) (scale this) q (dirtyCache this)
    (normalMatrix this) (transformMatrix this) (vertices this) (faces this).

Definition with_dirtyCache (this : Model M A) (c : DirtyCache) : Model M A :=
  mkModel (anims this) (vertexSize this) (vertexCount this) (vertexViewF32 this)
    (position this) (scale this) (rotation this) c
    (normalMatrix this) (transformMatrix this) (vertices this) (faces this).

Definition with_matrices (this : Model M A) (normal transform : M) : Model M A :=
  mkModel (anims this) (vertexSize this) (vertexCount this) (vertexViewF32 this)
    (position this) (scale this) (rotation this) (dirtyCache this)
    normal transform (vertices this) (faces this).

Definition with_vertices (this : Model M A) (vs : option (list Vertex.t)) : Model M A :=
  mkModel (anims this) (vertexSize this) (vertexCount this) (vertexViewF32 this)
    (position this) (scale this) (rotation this) (dirtyCache this)
    (normalMatrix this) (transformMatrix this) vs (faces this).

Definition with_faces (this : Model M A) (fs : option (list Face.t)) : Model M A :=
  mkModel (anims this) (vertexSize this) (vertexCount this) (vertexViewF32 this)
    (position this) (scale this) (rotation this) (dirtyCache this)
    (normalMatrix this) (transformMatrix this) (vertices this) fs.

(** *** [function Model (mesh, verticesCount, texture, frame, x, y, z)]

    The mesh, scene, texture and frame wiring and the material colours do
    not reach any function below and are left out.  [new ArrayBuffer]
    throws a RangeError on a negative length and on a length that
    [ToIndex] or the engine's allocation limit rejects.  Neither the
    constructor nor the mixins assign [this.vertices] or [this.faces]. *)
Definition initialize (verticesCount : Z) (x y z : JS.prim) : completion (Model M A) :=
  let x := match x with JS.Undefined => 0%float | JS.Num f => f end in
  let y := match y with JS.Undefined => 0%float | JS.Num f => f end in
  let z := match z with JS.Undefined => 0%float | JS.Num f => f end in
  let vertexSize := 32 in
  if negb (ArrayBuffer.accepts (verticesCount * vertexSize))
  then Throw (RangeError "Invalid array buffer length")
  else
    Normal
      {| anims := AnimationState.create;
         vertexSize := vertexSize;
         vertexCount := 0;
         vertexViewF32 := Float32Array.make (Z.to_nat (verticesCount * vertexSize / 4));
         position := Vector3.create x y z;
         scale := Vector3.create 1 1 1;
         rotation := Quaternion.create;
         dirtyCache := mkDirtyCache x y z 0 0 0 1 1 1 1 0;
         normalMatrix := Matrix4.create;
         transformMatrix := Matrix4.create;
         vertices := None;
         faces := None |}.

(** *** [isDirty]: compare with the cache, overwrite the cache, report *)
Definition isDirty (this : Model M A) : bool * Model M A :=
  let position := position this in
  let rotation := rotation this in
  let scale := scale this in
  let dirtyCache := dirtyCache this in
  let px := Vector3.x position in
  let py := Vector3.y position in
  let pz := Vector3.z position in
  let rx := Quaternion.x rotation in
  let ry := Quaternion.y rotation in
  let rz := Quaternion.z rotation in
  let rw := Quaternion.w rotation in
  let sx := Vector3.x scale in
  let sy := Vector3.y scale in
  let sz := Vector3.z scale in
  let vertices := vertexCount this in
  let pxCached := slot0 dirtyCache in
  let pyCached := slot1 dirtyCache in
  let pzCached := slot2 dirtyCache in
  let rxCached := slot3 dirtyCache in
  let ryCached := slot4 dirtyCache in
  let rzCached := slot5 dirtyCache in
  let rwCached := slot6 dirtyCache in
  let sxCached := slot7 dirtyCache in
  let syCached := slot8 dirtyCache in
  let szCached := slot9 dirtyCache in
  let vCached := slot10 dirtyCache in
  let this := with_dirtyCache this (mkDirtyCache px py pz rx ry rz rw sx sy sz vertices) in
  (JS.strict_ne pxCached px || JS.strict_ne pyCached py || JS.strict_ne pzCached pz ||
   JS.strict_ne rxCached rx || JS.strict_ne ryCached ry || JS.strict_ne rzCached rz ||
   JS.strict_ne rwCached rw ||
   JS.strict_ne sxCached sx || JS.strict_ne syCached sy || JS.strict_ne szCached sz ||
   negb (vCached =? vertices),
   this).

(** *** [preUpdate (time, delta)] *)
Definition preUpdate (this : Model M A) (time delta : float) : Model M A :=
  let this := with_anims this (AnimationState.update (anims this) time delta) in
  let (dirty, this) := isDirty this in
  if dirty then
    let normalMatrix := normalMatrix this in
    let transformMatrix := transformMatrix this in
    let transformMatrix :=
      Matrix4.fromRotationTranslation transformMatrix (rotation this) (position this) in
    let transformMatrix := Matrix4.scale transformMatrix (scale this) in
    let normalMatrix := Matrix4.copy normalMatrix transformMatrix in
    let normalMatrix := Matrix4.invert normalMatrix in
    let normalMatrix := Matrix4.transpose normalMatrix in
    with_matrices this normalMatrix transformMatrix
  else this.

(** *** [getFaceCount]: [vertexCount / 3], a JavaScript division *)
Definition getFaceCount (this : Model M A) : float :=
  (JS.of_int (vertexCount this) / 3)%float.

(** *** [getVertex (index)] *)
Definition getVertex (this : Model M A) (index : Z) : VertexObject.t :=
  let vertexViewF32 := vertexViewF32 this in
  let vertexOffset := index * 8 - 1 in
  let vertexOffset := vertexOffset + 1 in
  let x := Float32Array.get vertexViewF32 vertexOffset in
  let vertexOffset := vertexOffset + 1 in
  let y := Float32Array.get vertexViewF32 vertexOffset in
  let vertexOffset := vertexOffset + 1 in
  let z := Float32Array.get vertexViewF32 vertexOffset in
  let vertexOffset := vertexOffset + 1 in
  let normalX := Float32Array.get vertexViewF32 vertexOffset in
  let vertexOffset := vertexOffset + 1 in
  let normalY := Float32Array.get vertexViewF32 vertexOffset in
  let vertexOffset := vertexOffset + 1 in
  let normalZ := Float32Array.get vertexViewF32 vertexOffset in
  let vertexOffset := vertexOffset + 1 in
  let u := Float32Array.get vertexViewF32 vertexOffset in
  let vertexOffset := vertexOffset + 1 in
  let v := Float32Array.get vertexViewF32 vertexOffset in
  {| VertexObject.x := x; VertexObject.y := y; VertexObject.z := z;
     VertexObject.u := u; VertexObject.v := v;
     VertexObject.normalX := normalX; VertexObject.normalY := normalY;
     VertexObject.normalZ := normalZ;
     VertexObject.alpha := JS.Num 1 |}.

(** *** [getFace (index)]

    The subtractions convert their operands with [ToNumber]; [>=] is the
    IEEE comparison, false when its left operand is NaN. *)
Definition getFace (this : Model M A) (index : Z) : FaceObject.t :=
  let offset := index * 3 in
  let v1 := getVertex this offset in
  let v2 := getVertex this (offset + 1) in
  let v3 := getVertex this (offset + 2) in
  let num := JS.to_number in
  let ccw :=
    (0 <=?
     (num (VertexObject.x v2) - num (VertexObject.x v1)) *
     (num (VertexObject.y v3) - num (VertexObject.y v1)) -
     (num (VertexObject.y v2) - num (VertexObject.y v1)) *
     (num (VertexObject.x v3) - num (VertexObject.x v1)))%float in
  {| FaceObject.vertex1 := FaceObject.Vert v1;
     FaceObject.vertex2 := FaceObject.Vert v2;
     FaceObject.vertex3 := FaceObject.Number 3;
     FaceObject.isCounterClockwise := ccw |}.

(** *** [addVertex (x, y, z, u, v, normalX, normalY, normalZ)] *)
Definition addVertex (this : Model M A) (x y z u v normalX normalY normalZ : float)
  : Model M A :=
  let vertexViewF32 := vertexViewF32 this in
  let vertexOffset := vertexCount this * 8 - 1 in
  let vertexOffset := vertexOffset + 1 in
  let vertexViewF32 := Float32Array.set vertexViewF32 vertexOffset x in
  let vertexOffset := vertexOffset + 1 in
  let vertexViewF32 := Float32Array.set vertexViewF32 vertexOffset y in
  let vertexOffset := vertexOffset + 1 in
  let vertexViewF32 := Float32Array.set vertexViewF32 vertexOffset z in
  let vertexOffset := vertexOffset + 1 in
  let vertexViewF32 := Float32Array.set vertexViewF32 vertexOffset normalX in
  let vertexOffset := vertexOffset + 1 in
  let vertexViewF32 := Float32Array.set vertexViewF32 vertexOffset normalY in
  let vertexOffset := vertexOffset + 1 in
  let vertexViewF32 := Float32Array.set vertexViewF32 vertexOffset normalZ in
  let vertexOffset := vertexOffset + 1 in
  let vertexViewF32 := Float32Array.set vertexViewF32 vertexOffset u in
  let vertexOffset := vertexOffset + 1 in
  let vertexViewF32 := Float32Array.set vertexViewF32 vertexOffset v in
  let this := with_vertexViewF32 this vertexViewF32 in
  with_vertexCount this (vertexCount this + 1).

(** *** [addVertices (vertices, uvs, indicies, colors, alphas)] *)

(** [verts.push(vert)], where [verts] is the value of [this.vertices];
    calling a method on [undefined] throws a TypeError. *)
Definition push_vert (vert : Vertex.t) : Eff (Model M A) unit :=
  fun this =>
    match vertices this with
    | None => (Throw (TypeError "Cannot read properties of undefined (reading 'push')"), this)
    | Some verts => (Normal tt, with_vertices this (Some (verts ++ [vert])))
    end.

(** [verts.length] *)
Definition verts_length : Eff (Model M A) nat :=
  fun this =>
    match vertices this with
    | None => (Throw (TypeError "Cannot read properties of undefined (reading 'length')"), this)
    | Some verts => (Normal (length verts), this)
    end.

(** [verts[i]] *)
Definition verts_at (i : nat) : Eff (Model M A) (option Vertex.t) :=
  fun this =>
    match vertices this with
    | None => (Throw (TypeError "Cannot read properties of undefined"), this)
    | Some verts => (Normal (verts !! i), this)
    end.

(** [faces.push(face)], where [faces] is the value of [this.faces]. *)
Definition push_face (face : Face.t) : Eff (Model M A) unit :=
  fun this =>
    match faces this with
    | None => (Throw (TypeError "Cannot read properties of undefined (reading 'push')"), this)
    | Some fs => (Normal tt, with_faces this (Some (fs ++ [face])))
    end.

Definition addVertices (vertices uvs : list float) (indicies : option (list Z))
  (colors alphas : JS.arg) : Eff (Model M A) unit :=
  let colors := match colors with JS.ArgUndefined => JS.ArgNumber 16777215 | _ => colors end in
  let alphas := match alphas with JS.ArgUndefined => JS.ArgNumber 1 | _ => alphas end in
  if negb (length vertices =? length uvs)%nat
  then throw (Error "Mesh - vertices and uv count not equal")
  else
    let isColorArray := JS.isArray colors in
    let isAlphaArray := JS.isArray alphas in
    run (match indicies with
     | Some ((_ :: _) as indicies) =>
         for_each (imap (fun i entry => (Z.of_nat i, entry)) indicies)
           (fun '(i, entry) =>
              let index := entry * 2 in
              let vert :=
                Vertex.mk
                  (JS.array_get vertices index)
                  (JS.array_get vertices (index + 1))
                  (JS.Num 0)
                  (JS.array_get uvs index)
                  (JS.array_get uvs (index + 1))
                  (if isColorArray then JS.arg_get colors i else JS.arg_value colors)
                  (if isAlphaArray then JS.arg_get alphas i else JS.arg_value alphas) in
              push_vert vert)
     | _ =>
         for_each (seq 0 ((length vertices + 1) / 2)%nat)
           (fun step =>
              let i := Z.of_nat step * 2 in
              let colorIndex := Z.of_nat step in
              let vert :=
                Vertex.mk
                  (JS.array_get vertices i)
                  (JS.array_get vertices (i + 1))
                  (JS.Num 0)
                  (JS.array_get uvs i)
                  (JS.array_get uvs (i + 1))
                  (if isColorArray then JS.arg_get colors colorIndex else JS.arg_value colors)
                  (if isAlphaArray then JS.arg_get alphas colorIndex else JS.arg_value alphas) in
              push_vert vert)
     end);
    do count <- verts_length;
    for_each (seq 0 ((count + 2) / 3)%nat)
      (fun step =>
         let i := (step * 3)%nat in
         do vert1 <- verts_at i;
         do vert2 <- verts_at (i + 1)%nat;
         do vert3 <- verts_at (i + 2)%nat;
         let face := Face.mk vert1 vert2 vert3 in
         push_face face).

(** *** The accessors [x], [y], [z], [scaleX], [scaleY], [scaleZ] *)

Definition get_x (this : Model M A) : float := Vector3.x (position this).

Definition set_x (this : Model M A) (value : float) : Model M A :=
  let p := position this in
  with_position this (Vector3.mk value (Vector3.y p) (Vector3.z p)).

Definition get_y (this : Model M A) : float := Vector3.y (position this).

Definition set_y (this : Model M A) (value : float) : Model M A :=
  let p := position this in
  with_position this (Vector3.mk (Vector3.x p) value (Vector3.z p)).

Definition get_z (this : Model M A) : float := Vector3.z (position this).

Definition set_z (this : Model M A) (value : float) : Model M A :=
  let p := position this in
  with_position this (Vector3.mk (Vector3.x p) (Vector3.y p) value).

Definition get_scaleX (this : Model M A) : float := Vector3.x (scale this).

Definition set_scaleX (this : Model M A) (value : float) : Model M A :=
  let s := scale this in
  with_scale this (Vector3.mk value (Vector3.y s) (Vector3.z s)).

Definition get_scaleY (this : Model M A) : float := Vector3.y (scale this).

Definition set_scaleY (this : Model M A) (value : float) : Model M A :=
  let s := scale this in
  with_scale this (Vector3.mk (Vector3.x s) value (Vector3.z s)).

Definition get_scaleZ (this : Model M A) : float := Vector3.z (scale this).

Definition set_scaleZ (this : Model M A) (value : float) : Model M A :=
  let s := scale this in
  with_scale this (Vector3.mk (Vector3.x s) (Vector3.y s) value).

End ModelMethods.

(** ** A Matrix4 and an AnimationState to run the Model with *)

Module SpecMatrix4.

Local Open Scope float_scope.

(** The sixteen entries [val[0] .. val[15]], column by column: entry
    [4 * c + r] is row [r] of column [c]. *)
Record t : Type := mk {
  m0 : float; m1 : float; m2 : float; m3 : float;
  m4 : float; m5 : float; m6 : float; m7 : float;
  m8 : float; m9 : float; m10 : float; m11 : float;
  m12 : float; m13 : float; m14 : float; m15 : float
}.

(** Modelled from the spec: [new Matrix4()], outside the given source; a
    fresh matrix is the identity. *)
Definition identity : t :=
  mk 1 0 0 0
     0 1 0 0
     0 0 1 0
     0 0 0 1.

(** The matrix of the translation by (x, y, z). *)
Definition translation (x y z : float) : t :=
  mk 1 0 0 0
     0 1 0 0
     0 0 1 0
     x y z 1.

(** Modelled from the spec: [Matrix4.fromRotationTranslation], outside the
    given source; "rotation+translation composed": the rotation matrix of
    the quaternion in the upper-left block, the translation in the last
    column. *)
Definition fromRotationTranslation (this : t) (q : Quaternion.t) (v : Vector3.t) : t :=
  let x := Quaternion.x q in
  let y := Quaternion.y q in
  let z := Quaternion.z q in
  let w := Quaternion.w q in
  let x2 := x + x in
  let y2 := y + y in
  let z2 := z + z in
  let xx := x * x2 in
  let xy := x * y2 in
  let xz := x * z2 in
  let yy := y * y2 in
  let yz := y * z2 in
  let zz := z * z2 in
  let wx := w * x2 in
  let wy := w * y2 in
  let wz := w * z2 in
  mk (1 - (yy + zz)) (xy + wz) (xz - wy) 0
     (xy - wz) (1 - (xx + zz)) (yz + wx) 0
     (xz + wy) (yz - wx) (1 - (xx + yy)) 0
     (Vector3.x v) (Vector3.y v) (Vector3.z v) 1.

(** Modelled from the spec: [Matrix4.scale], outside the given source;
    "then scaled by concatenation": the matrix times the scaling matrix,
    which multiplies the first three columns by x, y and z. *)
Definition scale (this : t) (v : Vector3.t) : t :=
  let x := Vector3.x v in
  let y := Vector3.y v in
  let z := Vector3.z v in
  mk (m0 this * x) (m1 this * x) (m2 this * x) (m3 this * x)
     (m4 this * y) (m5 this * y) (m6 this * y) (m7 this * y)
     (m8 this * z) (m9 this * z) (m10 this * z) (m11 this * z)
     (m12 this) (m13 this) (m14 this) (m15 this).

(** Modelled from the spec: [Matrix4.copy], outside the given source; the
    receiver takes the sixteen entries of [src]. *)
Definition copy (this src : t) : t := src.

(** Modelled from the spec: [Matrix4.transpose], outside the given source. *)
Definition transpose (this : t) : t :=
  mk (m0 this) (m4 this) (m8 this) (m12 this)
     (m1 this) (m5 this) (m9 this) (m13 this)
     (m2 this) (m6 this) (m10 this) (m14 this)
     (m3 this) (m7 this) (m11 this) (m15 this).

(** Modelled from the spec: [Matrix4.invert], outside the given source; the
    inverse by cofactors over the determinant.  A matrix whose determinant
    is zero or NaN is left as it is. *)
Definition invert (this : t) : t :=
  let a00 := m0 this in let a01 := m1 this in let a02 := m2 this in let a03 := m3 this in
  let a10 := m4 this in let a11 := m5 this in let a12 := m6 this in let a13 := m7 this in
  let a20 := m8 this in let a21 := m9 this in let a22 := m10 this in let a23 := m11 this in
  let a30 := m12 this in let a31 := m13 this in let a32 := m14 this in let a33 := m15 this in
  let b00 := a00 * a11 - a01 * a10 in
  let b01 := a00 * a12 - a02 * a10 in
  let b02 := a00 * a13 - a03 * a10 in
  let b03 := a01 * a12 - a02 * a11 in
  let b04 := a01 * a13 - a03 * a11 in
  let b05 := a02 * a13 - a03 * a12 in
  let b06 := a20 * a31 - a21 * a30 in
  let b07 := a20 * a32 - a22 * a30 in
  let b08 := a20 * a33 - a23 * a30 in
  let b09 := a21 * a32 - a22 * a31 in
  let b10 := a21 * a33 - a23 * a31 in
  let b11 := a22 * a33 - a23 * a32 in
  let det := b00 * b11 - b01 * b10 + b02 * b09 + b03 * b08 - b04 * b07 + b05 * b06 in
  if (det =? 0) || is_nan det then this
  else
    let det := 1 / det in
    mk ((a11 * b11 - a12 * b10 + a13 * b09) * det)
       ((a02 * b10 - a01 * b11 - a03 * b09) * det)
       ((a31 * b05 - a32 * b04 + a33 * b03) * det)
       ((a22 * b04 - a21 * b05 - a23 * b03) * det)
       ((a12 * b08 - a10 * b11 - a13 * b07) * det)
       ((a00 * b11 - a02 * b08 + a03 * b07) * det)
       ((a32 * b02 - a30 * b05 - a33 * b01) * det)
       ((a20 * b05 - a22 * b02 + a23 * b01) * det)
       ((a10 * b10 - a11 * b08 + a13 * b06) * det)
       ((a01 * b08 - a00 * b10 - a03 * b06) * det)
       ((a30 * b04 - a31 * b02 + a33 * b00) * det)
       ((a21 * b02 - a20 * b04 - a23 * b00) * det)
       ((a11 * b07 - a10 * b09 - a12 * b06) * det)
       ((a00 * b09 - a01 * b07 + a02 * b06) * det)
       ((a31 * b01 - a30 * b03 - a32 * b00) * det)
       ((a20 * b03 - a21 * b01 + a22 * b00) * det).

(** The product [a * b] of two matrices in this layout. *)
Definition multiply (a b : t) : t :=
  let col (b0 b1 b2 b3 : float) (r0 r1 r2 r3 : float) :=
    r0 * b0 + r1 * b1 + r2 * b2 + r3 * b3 in
  mk (col (m0 b) (m1 b) (m2 b) (m3 b) (m0 a) (m4 a) (m8 a) (m12 a))
     (col (m0 b) (m1 b) (m2 b) (m3 b) (m1 a) (m5 a) (m9 a) (m13 a))
     (col (m0 b) (m1 b) (m2 b) (m3 b) (m2 a) (m6 a) (m10 a) (m14 a))
     (col (m0 b) (m1 b) (m2 b) (m3 b) (m3 a) (m7 a) (m11 a) (m15 a))
     (col (m4 b) (m5 b) (m6 b) (m7 b) (m0 a) (m4 a) (m8 a) (m12 a))
     (col (m4 b) (m5 b) (m6 b) (m7 b) (m1 a) (m5 a) (m9 a) (m13 a))
     (col (m4 b) (m5 b) (m6 b) (m7 b) (m2 a) (m6 a) (m10 a) (m14 a))
     (col (m4 b) (m5 b) (m6 b) (m7 b) (m3 a) (m7 a) (m11 a) (m15 a))
     (col (m8 b) (m9 b) (m10 b) (m11 b) (m0 a) (m4 a) (m8 a) (m12 a))
     (col (m8 b) (m9 b) (m10 b) (m11 b) (m1 a) (m5 a) (m9 a) (m13 a))
     (col (m8 b) (m9 b) (m10 b) (m11 b) (m2 a) (m6 a) (m10 a) (m14 a))
     (col (m8 b) (m9 b) (m10 b) (m11 b) (m3 a) (m7 a) (m11 a) (m15 a))
     (col (m12 b) (m13 b) (m14 b) (m15 b) (m0 a) (m4 a) (m8 a) (m12 a))
     (col (m12 b) (m13 b) (m14 b) (m15 b) (m1 a) (m5 a) (m9 a) (m13 a))
     (col (m12 b) (m13 b) (m14 b) (m15 b) (m2 a) (m6 a) (m10 a) (m14 a))
     (col (m12 b) (m13 b) (m14 b) (m15 b) (m3 a) (m7 a) (m11 a) (m15 a)).

#[global] Instance ops : Matrix4.Ops t := {|
  Matrix4.create := identity;
  Matrix4.fromRotationTranslation := fromRotationTranslation;
  Matrix4.scale := scale;
  Matrix4.copy := copy;
  Matrix4.invert := invert;
  Matrix4.transpose := transpose
|}.

End SpecMatrix4.

(** Modelled from the spec: [new Quaternion()], outside the given source;
    the spec's Transform State holds a unit quaternion, and the snapshot the
    constructor writes records the rotation (0, 0, 0, 1). *)
#[global] Instance identity_rotation : Quaternion.Default := Quaternion.identity.

(** A Quaternion class whose constructor defaults every component, w
    included, to 0. *)
Definition zero_rotation : Quaternion.Default := Quaternion.mk 0 0 0 0.

(** An allocation limit to run the Model with: 2 GiB - 1. *)
#[global] Instance buffer_limit : ArrayBuffer.Limit := 2147483647.

(** An animation state with no animation loaded: advancing it does nothing. *)
Module IdleAnimation.

#[global] Instance ops : AnimationState.Ops unit := {|
  AnimationState.create := tt;
  AnimationState.update := fun a _ _ => a
|}.

End IdleAnimation.

(** A Model over the matrix and animation state above. *)
Definition SpecModel : Type := Model SpecMatrix4.t unit.

(** [f] applied to the value of a normal completion. *)
Definition completion_map {T U} (f : T -> U) (c : completion T) : completion U :=
  match c with
  | Normal v => Normal (f v)
  | Throw e => Throw e
  end.

(** ** The monitored tuple *)

Section Monitored.

Context {M A : Type}.

(** The current (position, rotation, scale, vertexCount) tuple of a Model,
    laid out as the cache lays it out. *)
Definition snapshot (this : Model M A) : DirtyCache :=
  mkDirtyCache
    (Vector3.x (position this)) (Vector3.y (position this)) (Vector3.z (position this))
    (Quaternion.x (rotation this)) (Quaternion.y (rotation this))
    (Quaternion.z (rotation this)) (Quaternion.w (rotation this))
    (Vector3.x (scale this)) (Vector3.y (scale this)) (Vector3.z (scale this))
    (vertexCount this).

(** One write to a monitored field: an accessor assignment, a new value of
    the rotation quaternion, or an appended vertex. *)
Inductive mutation : Type :=
| SetX (value : float)
| SetY (value : float)
| SetZ (value : float)
| SetScaleX (value : float)
| SetScaleY (value : float)
| SetScaleZ (value : float)
| SetRotation (q : Quaternion.t)
| AddVertex (x y z u v normalX normalY normalZ : float).

Definition mutate (this : Model M A) (mu : mutation) : Model M A :=
  match mu with
  | SetX value => set_x this value
  | SetY value => set_y this value
  | SetZ value => set_z this value
  | SetScaleX value => set_scaleX this value
  | SetScaleY value => set_scaleY this value
  | SetScaleZ value => set_scaleZ this value
  | SetRotation q => with_rotation this q
  | AddVertex x y z u v normalX normalY normalZ =>
      addVertex this x y z u v normalX normalY normalZ
  end.

(** The write stores a value that [!==] tells apart from the one it
    replaces. *)
Definition observable (this : Model M A) (mu : mutation) : bool :=
  match mu with
  | SetX value => JS.strict_ne (get_x this) value
  | SetY value => JS.strict_ne (get_y this) value
  | SetZ value => JS.strict_ne (get_z this) value
  | SetScaleX value => JS.strict_ne (get_scaleX this) value
  | SetScaleY value => JS.strict_ne (get_scaleY this) value
  | SetScaleZ value => JS.strict_ne (get_scaleZ this) value
  | SetRotation q =>
      JS.strict_ne (Quaternion.x (rotation this)) (Quaternion.x q) ||
      JS.strict_ne (Quaternion.y (rotation this)) (Quaternion.y q) ||
      JS.strict_ne (Quaternion.z (rotation this)) (Quaternion.z q) ||
      JS.strict_ne (Quaternion.w (rotation this)) (Quaternion.w q)
  | AddVertex _ _ _ _ _ _ _ _ => true
  end.

End Monitored.

(** Some slot of [now] is told apart by [!==] from the same slot of
    [cache]. *)
Definition changed (cache now : DirtyCache) : Prop :=
  JS.strict_ne (slot0 cache) (slot0 now) = true \/
  JS.strict_ne (slot1 cache) (slot1 now) = true \/
  JS.strict_ne (slot2 cache) (slot2 now) = true \/
  JS.strict_ne (slot3 cache) (slot3 now) = true \/
  JS.strict_ne (slot4 cache) (slot4 now) = true \/
  JS.strict_ne (slot5 cache) (slot5 now) = true \/
  JS.strict_ne (slot6 cache) (slot6 now) = true \/
  JS.strict_ne (slot7 cache) (slot7 now) = true \/
  JS.strict_ne (slot8 cache) (slot8 now) = true \/
  JS.strict_ne (slot9 cache) (slot9 now) = true \/
  slot10 cache <> slot10 now.

(** [!==] tells some component of [q] apart from the rotation (0, 0, 0, 1)
    that the constructor writes into the cache. *)
Definition cached_rotation_differs (q : Quaternion.t) : bool :=
  JS.strict_ne 0 (Quaternion.x q) || JS.strict_ne 0 (Quaternion.y q) ||
  JS.strict_ne 0 (Quaternion.z q) || JS.strict_ne 1 (Quaternion.w q).

(** Some position, rotation or scale component is NaN. *)
Definition has_nan (c : DirtyCache) : bool :=
  is_nan (slot0 c) || is_nan (slot1 c) || is_nan (slot2 c) ||
  is_nan (slot3 c) || is_nan (slot4 c) || is_nan (slot5 c) || is_nan (slot6 c) ||
  is_nan (slot7 c) || is_nan (slot8 c) || is_nan (slot9 c).

(** The 2D cross product of the edges v2 - v1 and v3 - v1 over x and y, in
    binary64 arithmetic. *)
Definition cross2d (v1 v2 v3 : VertexObject.t) : float :=
  let x1 := JS.to_number (VertexObject.x v1) in
  let y1 := JS.to_number (VertexObject.y v1) in
  let x2 := JS.to_number (VertexObject.x v2) in
  let y2 := JS.to_number (VertexObject.y v2) in
  let x3 := JS.to_number (VertexObject.x v3) in
  let y3 := JS.to_number (VertexObject.y v3) in
  ((x2 - x1) * (y3 - y1) - (y2 - y1) * (x3 - x1))%float.

(** A vertex object at (x, y) with every other attribute zero. *)
Definition flat_vertex (x y : float) : VertexObject.t :=
  VertexObject.mk (JS.Num x) (JS.Num y) (JS.Num 0) (JS.Num 0) (JS.Num 0)
    (JS.Num 0) (JS.Num 0) (JS.Num 0) (JS.Num 1).

(** The statements of [addVertices] leave the packed buffer alone. *)
Definition keeps_buffer {M A T} (c : Eff (Model M A) T) : Prop :=
  forall this,
    vertexCount (snd (c this)) = vertexCount this /\
    vertexViewF32 (snd (c this)) = vertexViewF32 this.

(** A Model built for three vertices, with the triangle (x1, y1),
    (x2, y2), (x3, y3) appended by three [addVertex] calls. *)
Definition triangle (x1 y1 x2 y2 x3 y3 : float) : completion SpecModel :=
  completion_map
    (fun this =>
       let this := addVertex this x1 y1 0 0 0 0 0 0 in
       let this := addVertex this x2 y2 0 0 0 0 0 0 in
       addVertex this x3 y3 0 0 0 0 0 0)
    (initialize 3 JS.Undefined JS.Undefined JS.Undefined).

(** [this.vertices] is [undefined]. *)
Definition vertices_undefined {M A} (this : Model M A) : Prop := vertices this = None.

(** ** The rotation shortcuts *)

Module Rotation.

(** [Quaternion.rotateX], [rotateY] and [rotateZ], outside the given
    source: each rotates its receiver in place by [rad] radians, so it is a
    function from the receiver to the receiver afterwards. *)
Class Ops : Type := {
  rotateX : Quaternion.t -> float -> Quaternion.t;
  rotateY : Quaternion.t -> float -> Quaternion.t;
  rotateZ : Quaternion.t -> float -> Quaternion.t
}.

End Rotation.

Section RotationMethods.

Context {M A : Type} `{Rotation.Ops}.

(** [rotateX (rad)]: [this.rotation.rotateX(rad); return this]. *)
Definition rotateX (this : Model M A) (rad : float) : Model M A :=
  with_rotation this (Rotation.rotateX (rotation this) rad).

(** [rotateY (rad)] *)
Definition rotateY (this : Model M A) (rad : float) : Model M A :=
  with_rotation this (Rotation.rotateY (rotation this) rad).

(** [rotateZ (rad)] *)
Definition rotateZ (this : Model M A) (rad : float) : Model M A :=
  with_rotation this (Rotation.rotateZ (rotation this) rad).

End RotationMethods.

(** ** Runs of [addVertex] calls *)

(** The arguments of one [addVertex] call, in parameter order. *)
Record VertexArgs : Type := mkVertexArgs {
  arg_x : float; arg_y : float; arg_z : float;
  arg_u : float; arg_v : float;
  arg_normalX : float; arg_normalY : float; arg_normalZ : float
}.

Section Appending.

Context {M A : Type}.

(** [this.addVertex (a.x, a.y, a.z, a.u, a.v, a.normalX, a.normalY, a.normalZ)] *)
Definition addVertexArgs (this : Model M A) (a : VertexArgs) : Model M A :=
  addVertex this (arg_x a) (arg_y a) (arg_z a) (arg_u a) (arg_v a)
    (arg_normalX a) (arg_normalY a) (arg_normalZ a).

(** One [addVertex] call per element of [calls], first to last. *)
Definition addVertexAll (this : Model M A) (calls : list VertexArgs) : Model M A :=
  fold_left addVertexArgs calls this.

End Appending.

(** What [getVertex] decodes for a vertex stored from [a]. *)
Definition stored (a : VertexArgs) : VertexObject.t :=
  VertexObject.mk
    (JS.Num (JS.fround (arg_x a))) (JS.Num (JS.fround (arg_y a)))
    (JS.Num (JS.fround (arg_z a)))
    (JS.Num (JS.fround (arg_u a))) (JS.Num (JS.fround (arg_v a)))
    (JS.Num (JS.fround (arg_normalX a))) (JS.Num (JS.fround (arg_normalY a)))
    (JS.Num (JS.fround (arg_normalZ a)))
    (JS.Num 1).

(** The vertex object whose eight attributes are [undefined]. *)
Definition undefined_vertex : VertexObject.t :=
  VertexObject.mk JS.Undefined JS.Undefined JS.Undefined JS.Undefined JS.Undefined
    JS.Undefined JS.Undefined JS.Undefined (JS.Num 1).

(** The slot of [view] at offset [i], and 0 where there is none. *)
Definition slot_at (view : list float) (i : Z) : float :=
  nth (Z.to_nat i) view 0%float.

(** ** What [addVertices] emits, as lists *)

(** The colour or alpha of the vertex emitted at position [emission]: the
    default when the argument is absent, the single value, or the array
    entry at [emission]. *)
Definition pick (a : JS.arg) (default : float) (emission : Z) : JS.prim :=
  match a with
  | JS.ArgUndefined => JS.Num default
  | JS.ArgNumber f => JS.Num f
  | JS.ArgArray items => JS.array_get items emission
  end.

(** The Vertex built from the pair at [offset] of [vertices] and [uvs]. *)
Definition vertex_from (vertices uvs : list float) (colors alphas : JS.arg)
  (offset emission : Z) : Vertex.t :=
  Vertex.mk
    (JS.array_get vertices offset) (JS.array_get vertices (offset + 1))
    (JS.Num 0)
    (JS.array_get uvs offset) (JS.array_get uvs (offset + 1))
    (pick colors 16777215 emission) (pick alphas 1 emission).

(** The vertices a call emits: one per index, in index order, when a
    non-empty index array is given; otherwise one per started pair of
    [vertices], in array order. *)
Definition emitted (vertices uvs : list float) (indicies : option (list Z))
  (colors alphas : JS.arg) : list Vertex.t :=
  match indicies with
  | Some ((_ :: _) as entries) =>
      imap (fun i entry => vertex_from vertices uvs colors alphas (entry * 2) (Z.of_nat i))
        entries
  | _ =>
      map (fun step =>
             vertex_from vertices uvs colors alphas (Z.of_nat step * 2) (Z.of_nat step))
        (seq 0 ((length vertices + 1) / 2)%nat)
  end.

(** The faces over consecutive windows of three of [verts], the last
    window padded with [undefined]. *)
Definition grouped (verts : list Vertex.t) : list Face.t :=
  map (fun step =>
         Face.mk (verts !! (step * 3)%nat) (verts !! (step * 3 + 1)%nat)
           (verts !! (step * 3 + 2)%nat))
    (seq 0 ((length verts + 2) / 3)%nat).

(** The statements [c] write no property of [this] other than [vertices]
    and [faces]. *)
Definition only_arrays {M A T} (c : Eff (Model M A) T) : Prop :=
  forall this, exists vs fs, snd (c this) = with_faces (with_vertices this vs) fs.

(** Quaternion rotations to run the theorems with.  Sine and cosine of the
    half angle are taken from their Taylor polynomials of degree 7 and 6,
    in place of [Math.sin] and [Math.cos]. *)
Module TaylorRotation.

Local Open Scope float_scope.

Definition sin (r : float) : float :=
  r - r * r * r / 6 + r * r * r * r * r / 120 - r * r * r * r * r * r * r / 5040.

Definition cos (r : float) : float :=
  1 - r * r / 2 + r * r * r * r / 24 - r * r * r * r * r * r / 720.

Definition rotateX (q : Quaternion.t) (rad : float) : Quaternion.t :=
  let rad := rad * 0.5 in
  let ax := Quaternion.x q in
  let ay := Quaternion.y q in
  let az := Quaternion.z q in
  let aw := Quaternion.w q in
  let bx := sin rad in
  let bw := cos rad in
  Quaternion.mk (ax * bw + aw * bx) (ay * bw + az * bx) (az * bw - ay * bx)
    (aw * bw - ax * bx).

Definition rotateY (q : Quaternion.t) (rad : float) : Quaternion.t :=
  let rad := rad * 0.5 in
  let ax := Quaternion.x q in
  let ay := Quaternion.y q in
  let az := Quaternion.z q in
  let aw := Quaternion.w q in
  let by' := sin rad in
  let bw := cos rad in
  Quaternion.mk (ax * bw - az * by') (ay * bw + aw * by') (az * bw + ax * by')
    (aw * bw - ay * by').

Definition rotateZ (q : Quaternion.t) (rad : float) : Quaternion.t :=
  let rad := rad * 0.5 in
  let ax := Quaternion.x q in
  let ay := Quaternion.y q in
  let az := Quaternion.z q in
  let aw := Quaternion.w q in
  let bz := sin rad in
  let bw := cos rad in
  Quaternion.mk (ax * bw + ay * bz) (ay * bw - ax * bz) (az * bw + aw * bz)
    (aw * bw - az * bz).

#[global] Instance ops : Rotation.Ops := {|
  Rotation.rotateX := rotateX;
  Rotation.rotateY := rotateY;
  Rotation.rotateZ := rotateZ
|}.

End TaylorRotation.

(** A newly built Model for [verticesCount] vertices at the origin that a
    caller has given empty [vertices] and [faces] arrays. *)
Definition with_empty_arrays (verticesCount : Z) : completion SpecModel :=
  completion_map
    (fun this => with_faces (with_vertices this (Some [])) (Some []))
    (initialize verticesCount JS.Undefined JS.Undefined JS.Undefined).

(** ** Float32Array reads and writes *)

Section Float32ArrayFacts.

Implicit Types (view : list float) (i j : Z) (x : float).

Lemma Float32Array_length_set view i x :
  length (Float32Array.set view i x) = length view.
Proof.
  unfold Float32Array.set. destruct (i <? 0); [reflexivity|].
  apply length_insert.
Qed.

Lemma Float32Array_get_set_same view i x :
  0 <= i < Z.of_nat (length view) ->
  Float32Array.get (Float32Array.set view i x) i = JS.Num (JS.fround x).
Proof.
  intros Hi. unfold Float32Array.get, Float32Array.set.
  destruct (Z.ltb_spec i 0) as [Hneg|_]; [lia|].
  rewrite list_lookup_insert_eq by lia. reflexivity.
Qed.

Lemma Float32Array_get_set_other view i j x :
  i <> j ->
  Float32Array.get (Float32Array.set view i x) j = Float32Array.get view j.
Proof.
  intros Hne. unfold Float32Array.get, Float32Array.set.
  destruct (Z.ltb_spec j 0) as [Hj|Hj]; [reflexivity|].
  destruct (Z.ltb_spec i 0) as [Hi|Hi]; [reflexivity|].
  rewrite list_lookup_insert_ne by lia. reflexivity.
Qed.

Lemma Float32Array_set_discarded view i x :
  Z.of_nat (length view) <= i ->
  Float32Array.set view i x = view.
Proof.
  intros Hi. unfold Float32Array.set.
  destruct (Z.ltb_spec i 0) as [Hneg|_]; [reflexivity|].
  apply list_insert_ge. lia.
Qed.

End Float32ArrayFacts.

(** Settles a read of the slot at [offset] after the writes of [addVertex]. *)
Ltac read_back :=
  repeat (rewrite Float32Array_get_set_other by lia);
  rewrite Float32Array_get_set_same
    by (rewrite ?Float32Array_length_set; lia);
  reflexivity.

(** ** Vertex round trip *)

Section VertexBuffer.

Context {M A : Type}.

Implicit Types (this : Model M A).

(** C4. A vertex written by [addVertex] into a slot inside the buffer is
    read back by [getVertex] at that index with the attributes
    [x, y, z, normalX, normalY, normalZ, u, v] stored at offsets
    [8 * i .. 8 * i + 7] after rounding to binary32, and alpha 1; when the
    eight arguments are binary32 values already, they are read back
    unchanged. *)
Theorem getVertex_addVertex_roundtrip this (x y z u v normalX normalY normalZ : float) :
  0 <= vertexCount this ->
  8 * vertexCount this + 8 <= Z.of_nat (length (vertexViewF32 this)) ->
  let i := vertexCount this in
  let this' := addVertex this x y z u v normalX normalY normalZ in
  getVertex this' i =
    VertexObject.mk (JS.Num (JS.fround x)) (JS.Num (JS.fround y)) (JS.Num (JS.fround z))
      (JS.Num (JS.fround u)) (JS.Num (JS.fround v))
      (JS.Num (JS.fround normalX)) (JS.Num (JS.fround normalY)) (JS.Num (JS.fround normalZ))
      (JS.Num 1)
  /\ (JS.is_float32 x -> JS.is_float32 y -> JS.is_float32 z ->
      JS.is_float32 u -> JS.is_float32 v ->
      JS.is_float32 normalX -> JS.is_float32 normalY -> JS.is_float32 normalZ ->
      getVertex this' i =
        VertexObject.mk (JS.Num x) (JS.Num y) (JS.Num z) (JS.Num u) (JS.Num v)
          (JS.Num normalX) (JS.Num normalY) (JS.Num normalZ) (JS.Num 1)).
Proof.
  intros Hlo Hhi i this'.
  assert (Hread : getVertex this' i =
    VertexObject.mk (JS.Num (JS.fround x)) (JS.Num (JS.fround y)) (JS.Num (JS.fround z))
      (JS.Num (JS.fround u)) (JS.Num (JS.fround v))
      (JS.Num (JS.fround normalX)) (JS.Num (JS.fround normalY)) (JS.Num (JS.fround normalZ))
      (JS.Num 1)).
  { subst i this'. unfold getVertex, addVertex. cbn [vertexViewF32 with_vertexCount with_vertexViewF32].
    f_equal; read_back. }
  split; [exact Hread|].
  unfold JS.is_float32. intros Hx Hy Hz Hu Hv Hnx Hny Hnz.
  rewrite Hread, Hx, Hy, Hz, Hu, Hv, Hnx, Hny, Hnz. reflexivity.
Qed.

End VertexBuffer.

Section Capacity.

Context {M A : Type}.

Implicit Types (this : Model M A).

(** C10. [addVertex] has no capacity check and no failure outcome: on a
    Model whose [vertexCount] has reached the number of vertices the buffer
    holds (or is past it), one more [addVertex] still adds 1 to
    [vertexCount], and all eight writes fall outside the view and are
    discarded, so every stored value stays as it was. *)
Theorem addVertex_past_capacity this (x y z u v normalX normalY normalZ : float) :
  Z.of_nat (length (vertexViewF32 this)) <= 8 * vertexCount this ->
  let this' := addVertex this x y z u v normalX normalY normalZ in
  vertexCount this' = vertexCount this + 1 /\
  vertexViewF32 this' = vertexViewF32 this /\
  forall index, getVertex this' index = getVertex this index.
Proof.
  intros Hfull this'.
  assert (Hview : vertexViewF32 this' = vertexViewF32 this).
  { subst this'. unfold addVertex. cbn [vertexViewF32 with_vertexCount with_vertexViewF32].
    repeat (rewrite Float32Array_set_discarded
              by (rewrite ?Float32Array_length_set; lia)).
    reflexivity. }
  split; [reflexivity|]. split; [exact Hview|].
  intros index. unfold getVertex. rewrite Hview. reflexivity.
Qed.

End Capacity.

(** ** The dirty check *)

Section DirtyCheck.

Context {M A : Type}.

Implicit Types (this : Model M A) (mu : mutation).

Lemma strict_ne_self (a : float) : JS.strict_ne a a = is_nan a.
Proof. reflexivity. Qed.

Lemma isDirty_state this : snd (isDirty this) = with_dirtyCache this (snapshot this).
Proof. reflexivity. Qed.

Lemma isDirty_result this :
  fst (isDirty this) = true <-> changed (dirtyCache this) (snapshot this).
Proof.
  unfold isDirty, changed, snapshot. cbn [fst slot0 slot1 slot2 slot3 slot4 slot5 slot6 slot7 slot8 slot9 slot10].
  rewrite !orb_true_iff, negb_true_iff, Z.eqb_neq. tauto.
Qed.

(** A check against a cache that equals the current tuple reports a change
    exactly when a component is NaN. *)
Lemma isDirty_unchanged this :
  dirtyCache this = snapshot this ->
  fst (isDirty this) = has_nan (snapshot this).
Proof.
  intros Hcache. unfold isDirty. rewrite Hcache.
  unfold snapshot, has_nan.
  cbn [fst slot0 slot1 slot2 slot3 slot4 slot5 slot6 slot7 slot8 slot9 slot10].
  rewrite !strict_ne_self, Z.eqb_refl. cbn [negb]. rewrite orb_false_r. reflexivity.
Qed.

Lemma isDirty_twice this :
  fst (isDirty (snd (isDirty this))) = has_nan (snapshot this).
Proof.
  rewrite isDirty_state.
  rewrite isDirty_unchanged by reflexivity. reflexivity.
Qed.

Lemma snapshot_addVertex this (x y z u v normalX normalY normalZ : float) :
  slot10 (snapshot (addVertex this x y z u v normalX normalY normalZ)) =
  vertexCount this + 1.
Proof. reflexivity. Qed.

Lemma isDirty_after_mutation this mu :
  dirtyCache this = snapshot this ->
  observable this mu = true ->
  fst (isDirty (mutate this mu)) = true.
Proof.
  intros Hcache Hobs. apply isDirty_result.
  assert (Hsame : dirtyCache (mutate this mu) = snapshot this).
  { rewrite <- Hcache. destruct mu; reflexivity. }
  rewrite Hsame. unfold changed.
  destruct mu; cbn [observable mutate] in *;
    unfold get_x, get_y, get_z, get_scaleX, get_scaleY, get_scaleZ in Hobs.
  - left. exact Hobs.
  - right; left. exact Hobs.
  - do 2 right; left. exact Hobs.
  - do 7 right; left. exact Hobs.
  - do 8 right; left. exact Hobs.
  - do 9 right; left. exact Hobs.
  - rewrite !orb_true_iff in Hobs.
    destruct Hobs as [[[Hx|Hy]|Hz]|Hw].
    + do 3 right; left. exact Hx.
    + do 4 right; left. exact Hy.
    + do 5 right; left. exact Hz.
    + do 6 right; left. exact Hw.
  - do 10 right. rewrite snapshot_addVertex. cbn [slot10 snapshot]. lia.
Qed.

(** C3, as amended. [isDirty] returns true exactly when [!==] tells some
    slot of the current (position, rotation, scale, vertexCount) tuple apart
    from the cached slot, and every call leaves the current tuple in the
    cache and nothing else changed.  Hence, starting from a cache that
    equals the current tuple, a write that stores a [!==]-different value
    in a monitored field makes the next [isDirty] return true; and an
    [isDirty] that directly follows another returns false whenever no
    position, rotation or scale component is NaN. *)
Theorem isDirty_snapshot_diff :
  (forall this, fst (isDirty this) = true <-> changed (dirtyCache this) (snapshot this)) /\
  (forall this, snd (isDirty this) = with_dirtyCache this (snapshot this)) /\
  (forall this,
     has_nan (snapshot this) = false ->
     fst (isDirty (snd (isDirty this))) = false) /\
  (forall this mu,
     dirtyCache this = snapshot this ->
     observable this mu = true ->
     fst (isDirty (mutate this mu)) = true /\
     (has_nan (snapshot (mutate this mu)) = false ->
      fst (isDirty (snd (isDirty (mutate this mu)))) = false)).
Proof.
  split; [exact isDirty_result|].
  split; [exact isDirty_state|].
  split.
  - intros this Hnan. rewrite isDirty_twice. exact Hnan.
  - intros this mu Hcache Hobs. split.
    + apply isDirty_after_mutation; assumption.
    + intros Hnan. rewrite isDirty_twice. exact Hnan.
Qed.

End DirtyCheck.

(** ** The per-tick update *)

Section Recompute.

Context {M A : Type} `{Matrix4.Ops M} `{AnimationState.Ops A} `{Quaternion.Default}
  `{ArrayBuffer.Limit}.

Implicit Types (this : Model M A) (time delta : float).

(** The matrices [preUpdate] builds when the check reports a change. *)
Lemma preUpdate_unfold this time delta :
  preUpdate this time delta =
    let checked :=
      with_dirtyCache (with_anims this (AnimationState.update (anims this) time delta))
        (snapshot this) in
    if fst (isDirty this) then
      let transform :=
        Matrix4.scale
          (Matrix4.fromRotationTranslation (transformMatrix this) (rotation this) (position this))
          (scale this) in
      with_matrices checked
        (Matrix4.transpose (Matrix4.invert (Matrix4.copy (normalMatrix this) transform)))
        transform
    else checked.
Proof. reflexivity. Qed.

Lemma preUpdate_clean this time delta :
  fst (isDirty this) = false ->
  transformMatrix (preUpdate this time delta) = transformMatrix this /\
  normalMatrix (preUpdate this time delta) = normalMatrix this.
Proof.
  intros Hclean. rewrite preUpdate_unfold. cbv zeta. rewrite Hclean.
  split; reflexivity.
Qed.

Lemma preUpdate_dirty this time delta :
  fst (isDirty this) = true ->
  let transform :=
    Matrix4.scale
      (Matrix4.fromRotationTranslation (transformMatrix this) (rotation this) (position this))
      (scale this) in
  transformMatrix (preUpdate this time delta) = transform /\
  normalMatrix (preUpdate this time delta) =
    Matrix4.transpose (Matrix4.invert (Matrix4.copy (normalMatrix this) transform)).
Proof.
  intros Hdirty. rewrite preUpdate_unfold. cbv zeta. rewrite Hdirty.
  split; reflexivity.
Qed.

(** C6, as amended. When position, rotation, scale and vertexCount equal
    the cached tuple and no position, rotation or scale component is NaN,
    [preUpdate] leaves [transformMatrix] and [normalMatrix] as they were
    (as it does whenever [isDirty] reports no change).  When [isDirty]
    reports a change, [transformMatrix] becomes
    [fromRotationTranslation (rotation, position)] followed by
    [scale (scale)], and [normalMatrix] becomes the transpose of the
    inverse of a copy of that scaled matrix. *)
Theorem preUpdate_recompute_gate :
  (forall this time delta,
     dirtyCache this = snapshot this ->
     has_nan (snapshot this) = false ->
     transformMatrix (preUpdate this time delta) = transformMatrix this /\
     normalMatrix (preUpdate this time delta) = normalMatrix this) /\
  (forall this time delta,
     fst (isDirty this) = false ->
     transformMatrix (preUpdate this time delta) = transformMatrix this /\
     normalMatrix (preUpdate this time delta) = normalMatrix this) /\
  (forall this time delta,
     fst (isDirty this) = true ->
     let transform :=
       Matrix4.scale
         (Matrix4.fromRotationTranslation (transformMatrix this) (rotation this) (position this))
         (scale this) in
     transformMatrix (preUpdate this time delta) = transform /\
     normalMatrix (preUpdate this time delta) =
       Matrix4.transpose (Matrix4.invert (Matrix4.copy (normalMatrix this) transform))).
Proof.
  split; [|split].
  - intros this time delta Hcache Hnan. apply preUpdate_clean.
    rewrite isDirty_unchanged by exact Hcache. exact Hnan.
  - intros this time delta. apply preUpdate_clean.
  - intros this time delta. apply preUpdate_dirty.
Qed.

Lemma ArrayBuffer_accepts_bounds (length : Z) :
  ArrayBuffer.accepts length = true ->
  0 <= length <= 9007199254740991 /\ length <= ArrayBuffer.maxByteLength.
Proof.
  unfold ArrayBuffer.accepts. rewrite !andb_true_iff, !Z.leb_le. tauto.
Qed.

(** What a Model is when the constructor returns one. *)
Lemma initialize_built (verticesCount : Z) (x y z : JS.prim) (this : Model M A) :
  initialize verticesCount x y z = Normal this ->
  ArrayBuffer.accepts (verticesCount * 32) = true /\
  vertexCount this = 0 /\
  vertexViewF32 this = Float32Array.make (Z.to_nat (verticesCount * 32 / 4)) /\
  rotation this = Quaternion.create /\
  scale this = Vector3.mk 1 1 1 /\
  slot3 (dirtyCache this) = 0%float /\ slot4 (dirtyCache this) = 0%float /\
  slot5 (dirtyCache this) = 0%float /\ slot6 (dirtyCache this) = 1%float /\
  slot7 (dirtyCache this) = 1%float /\ slot8 (dirtyCache this) = 1%float /\
  slot9 (dirtyCache this) = 1%float /\ slot10 (dirtyCache this) = 0 /\
  normalMatrix this = Matrix4.create /\
  transformMatrix this = Matrix4.create /\
  vertices this = None /\ faces this = None.
Proof.
  unfold initialize. intros Hbuilt.
  destruct (ArrayBuffer.accepts (verticesCount * 32)); [|discriminate].
  cbn [negb] in Hbuilt. injection Hbuilt as <-. repeat split.
Qed.

Lemma initialize_first_check (verticesCount : Z) (x y z : float) (this : Model M A) :
  initialize verticesCount (JS.Num x) (JS.Num y) (JS.Num z) = Normal this ->
  is_nan x = false -> is_nan y = false -> is_nan z = false ->
  dirtyCache this = mkDirtyCache x y z 0 0 0 1 1 1 1 0 /\
  fst (isDirty this) = cached_rotation_differs Quaternion.create.
Proof.
  unfold initialize. intros Hbuilt Hx Hy Hz.
  destruct (ArrayBuffer.accepts (verticesCount * 32)); [|discriminate].
  cbn [negb] in Hbuilt. injection Hbuilt as <-. split; [reflexivity|].
  unfold isDirty, cached_rotation_differs, Vector3.create.
  cbn [fst dirtyCache position rotation scale vertexCount
       slot0 slot1 slot2 slot3 slot4 slot5 slot6 slot7 slot8 slot9 slot10
       Vector3.x Vector3.y Vector3.z].
  rewrite !strict_ne_self, Hx, Hy, Hz.
  change (is_nan 1) with false. cbn [orb negb Z.eqb].
  rewrite !orb_false_r. reflexivity.
Qed.

(** C9, as amended. A Model constructed at a position (x, y, z) with no
    NaN component starts with the cache [x, y, z, 0, 0, 0, 1, 1, 1, 1, 0]:
    that position, the identity rotation, unit scale and vertex count 0.
    The first [isDirty] with no write in between returns false exactly when
    [!==] tells no component of the rotation [new Quaternion()] yields
    apart from that cached (0, 0, 0, 1).  In that case the first
    [preUpdate] rebuilds nothing: [transformMatrix] and [normalMatrix] are
    still the matrices [new Matrix4()] made, whatever (x, y, z) is.
    Otherwise the first [preUpdate] rebuilds both. *)
Theorem initialize_starts_clean (verticesCount : Z) (x y z : float) (this : Model M A) :
  initialize verticesCount (JS.Num x) (JS.Num y) (JS.Num z) = Normal this ->
  is_nan x = false -> is_nan y = false -> is_nan z = false ->
  dirtyCache this = mkDirtyCache x y z 0 0 0 1 1 1 1 0 /\
  (fst (isDirty this) = false <-> cached_rotation_differs Quaternion.create = false) /\
  (cached_rotation_differs Quaternion.create = false ->
   forall time delta,
     transformMatrix (preUpdate this time delta) = Matrix4.create /\
     normalMatrix (preUpdate this time delta) = Matrix4.create) /\
  (cached_rotation_differs Quaternion.create = true ->
   forall time delta,
     let transform :=
       Matrix4.scale
         (Matrix4.fromRotationTranslation Matrix4.create Quaternion.create
            (Vector3.mk x y z))
         (Vector3.mk 1 1 1) in
     transformMatrix (preUpdate this time delta) = transform /\
     normalMatrix (preUpdate this time delta) =
       Matrix4.transpose (Matrix4.invert (Matrix4.copy Matrix4.create transform))).
Proof.
  intros Hbuilt Hx Hy Hz.
  destruct (initialize_first_check _ _ _ _ _ Hbuilt Hx Hy Hz) as [Hcache Hfirst].
  split; [exact Hcache|]. split; [rewrite Hfirst; tauto|]. split.
  - intros Hsame time delta. rewrite <- Hfirst in Hsame.
    destruct (preUpdate_clean this time delta Hsame) as [Htransform Hnormal].
    destruct (initialize_built _ _ _ _ _ Hbuilt)
      as (_ & _ & _ & _ & _ & _ & _ & _ & _ & _ & _ & _ & _ & Hn & Ht & _).
    rewrite Htransform, Hnormal, Hn, Ht. split; reflexivity.
  - intros Hdiffers time delta. rewrite <- Hfirst in Hdiffers.
    pose proof (preUpdate_dirty this time delta Hdiffers) as Hrebuilt.
    unfold initialize in Hbuilt.
    destruct (ArrayBuffer.accepts (verticesCount * 32)); [|discriminate].
    cbn [negb] in Hbuilt. injection Hbuilt as Hthis. rewrite <- Hthis in Hrebuilt.
    rewrite <- Hthis. exact Hrebuilt.
Qed.

(** The snapshot the constructor writes always records w = 1: were
    [new Quaternion()] to yield a w that [!==] tells apart from 1, the
    first [isDirty] would return true. *)
Lemma initialize_dirty_unless_unit_w (verticesCount : Z) (x y z : JS.prim) (this : Model M A) :
  initialize verticesCount x y z = Normal this ->
  JS.strict_ne 1 (Quaternion.w Quaternion.create) = true ->
  fst (isDirty this) = true.
Proof.
  intros Hbuilt Hw.
  destruct (initialize_built _ _ _ _ _ Hbuilt)
    as (_ & _ & _ & Hrotation & _ & _ & _ & _ & Hslot6 & _).
  apply isDirty_result. unfold changed. do 6 right; left.
  rewrite Hslot6. unfold snapshot. cbn [slot6]. rewrite Hrotation. exact Hw.
Qed.

End Recompute.

(** ** Faces *)

Section Faces.

Context {M A : Type}.

Implicit Types (this : Model M A) (index : Z).

(** C1. [getFace (index)] puts [getVertex (3 * index)] in [vertex1] and
    [getVertex (3 * index + 1)] in [vertex2], but its [vertex3] is the
    number 3 and not the decoded third vertex. *)
Theorem getFace_vertex3_is_literal this index :
  FaceObject.vertex1 (getFace this index) = FaceObject.Vert (getVertex this (3 * index)) /\
  FaceObject.vertex2 (getFace this index) = FaceObject.Vert (getVertex this (3 * index + 1)) /\
  FaceObject.vertex3 (getFace this index) = FaceObject.Number 3.
Proof.
  unfold getFace. rewrite (Z.mul_comm index 3). repeat split.
Qed.

(** C8. [getFace (index).isCounterClockwise] is true exactly when the 2D
    cross product (v2.x - v1.x) * (v3.y - v1.y) - (v2.y - v1.y) * (v3.x - v1.x)
    of the vertices at [3 * index], [3 * index + 1] and [3 * index + 2],
    evaluated in binary64 arithmetic as the source does, is [>= 0]; this
    holds at every index, in particular when [3 * index + 2 < vertexCount].
    The triangle (0,0), (1,0), (0,1) is counter-clockwise and the triangle
    (0,0), (0,1), (1,0) is not. *)
Theorem getFace_winding :
  (forall this index,
     FaceObject.isCounterClockwise (getFace this index) = true <->
     (0 <=? cross2d (getVertex this (3 * index)) (getVertex this (3 * index + 1))
              (getVertex this (3 * index + 2)))%float = true) /\
  completion_map
    (fun this : SpecModel =>
       (getVertex this 0, getVertex this 1, getVertex this 2,
        FaceObject.isCounterClockwise (getFace this 0)))
    (triangle 0 0 1 0 0 1) =
    Normal (flat_vertex 0 0, flat_vertex 1 0, flat_vertex 0 1, true) /\
  completion_map
    (fun this : SpecModel =>
       (getVertex this 0, getVertex this 1, getVertex this 2,
        FaceObject.isCounterClockwise (getFace this 0)))
    (triangle 0 0 0 1 1 0) =
    Normal (flat_vertex 0 0, flat_vertex 0 1, flat_vertex 1 0, false).
Proof.
  split; [|split].
  - intros this index. unfold getFace, cross2d. rewrite (Z.mul_comm index 3).
    cbn [FaceObject.isCounterClockwise]. reflexivity.
  - vm_compute. reflexivity.
  - vm_compute. reflexivity.
Qed.

End Faces.

(** The face of the triangle (0,0), (1,0), (0,1): its third vertex is at
    (0,1), its [vertex3] is 3. *)
Example getFace_triangle_vertex3 :
  completion_map
    (fun this => (getVertex this 2, FaceObject.vertex3 (getFace this 0)))
    (triangle 0 0 1 0 0 1) =
  Normal (flat_vertex 0 1, FaceObject.Number 3).
Proof. vm_compute. reflexivity. Qed.

(** ** Ingestion *)

Section Ingestion.

Context {M A : Type}.

Implicit Types (this : Model M A) (vertices uvs : list float)
  (indicies : option (list Z)) (colors alphas : JS.arg).

Lemma keeps_buffer_ret {T} (v : T) : keeps_buffer (ret (S := Model M A) v).
Proof. intros this. split; reflexivity. Qed.

Lemma keeps_buffer_throw {T} (e : exn) : keeps_buffer (throw (S := Model M A) (T := T) e).
Proof. intros this. split; reflexivity. Qed.

Lemma keeps_buffer_bind {T U} (c : Eff (Model M A) T) (k : T -> Eff (Model M A) U) :
  keeps_buffer c -> (forall v, keeps_buffer (k v)) -> keeps_buffer (bind c k).
Proof.
  intros Hc Hk this. unfold bind.
  specialize (Hc this). destruct (c this) as [[v|e] this'] eqn:Hrun; cbn [snd] in Hc.
  - destruct (Hk v this') as [Hcount Hview].
    destruct Hc as [Hcount' Hview']. split; congruence.
  - exact Hc.
Qed.

Lemma keeps_buffer_for_each {T} (items : list T) (body : T -> Eff (Model M A) unit) :
  (forall item, keeps_buffer (body item)) -> keeps_buffer (for_each items body).
Proof.
  intros Hbody. induction items as [|item rest IH]; cbn [for_each].
  - apply keeps_buffer_ret.
  - apply keeps_buffer_bind; [apply Hbody | intros _; exact IH].
Qed.

Lemma keeps_buffer_push_vert (vert : Vertex.t) : keeps_buffer (push_vert (M := M) (A := A) vert).
Proof. intros this. unfold push_vert. destruct (vertices this); split; reflexivity. Qed.

Lemma keeps_buffer_verts_length : keeps_buffer (verts_length (M := M) (A := A)).
Proof. intros this. unfold verts_length. destruct (vertices this); split; reflexivity. Qed.

Lemma keeps_buffer_verts_at (i : nat) : keeps_buffer (verts_at (M := M) (A := A) i).
Proof. intros this. unfold verts_at. destruct (vertices this); split; reflexivity. Qed.

Lemma keeps_buffer_push_face (face : Face.t) : keeps_buffer (push_face (M := M) (A := A) face).
Proof. intros this. unfold push_face. destruct (faces this); split; reflexivity. Qed.

Lemma addVertices_keeps_buffer vertices uvs indicies colors alphas :
  keeps_buffer (addVertices (M := M) (A := A) vertices uvs indicies colors alphas).
Proof.
  unfold addVertices.
  destruct (negb (length vertices =? length uvs)%nat); [apply keeps_buffer_throw|].
  apply keeps_buffer_bind.
  - destruct indicies as [[|entry rest]|];
      apply keeps_buffer_for_each; intros item;
      try destruct item; apply keeps_buffer_push_vert.
  - intros _. apply keeps_buffer_bind; [apply keeps_buffer_verts_length|].
    intros count. apply keeps_buffer_for_each. intros step.
    repeat (apply keeps_buffer_bind; [apply keeps_buffer_verts_at|intros ?]).
    apply keeps_buffer_push_face.
Qed.

(** With [this.vertices] undefined, a loop of [verts.push] calls throws on
    its first iteration, or has no iteration. *)
Lemma for_each_push_outcome {T} (items : list T) (body : T -> Eff (Model M A) unit) this :
  vertices_undefined this ->
  (forall item, exists vert, body item = push_vert vert) ->
  for_each items body this =
    (Throw (TypeError "Cannot read properties of undefined (reading 'push')"), this) \/
  for_each items body this = (Normal tt, this).
Proof.
  unfold vertices_undefined. intros Hundef Hbody.
  destruct items as [|item rest]; [right; reflexivity|left].
  cbn [for_each]. unfold bind. destruct (Hbody item) as [vert ->].
  unfold push_vert. rewrite Hundef. reflexivity.
Qed.

(** On a Model whose [vertices] property was never assigned, a call that
    passes the length test ends in a TypeError with the Model as it was. *)
Lemma addVertices_without_vertices_array this vertices uvs indicies colors alphas :
  vertices_undefined this ->
  length vertices = length uvs ->
  exists message,
    addVertices vertices uvs indicies colors alphas this = (Throw (TypeError message), this).
Proof.
  intros Hundef Hlen. unfold addVertices.
  destruct (Nat.eqb_spec (length vertices) (length uvs)) as [_|Hne]; [|contradiction].
  cbn [negb].
  destruct indicies as [[|entry rest]|];
    (unfold bind at 1;
     match goal with
     | |- context [for_each ?items ?body this] =>
         destruct (for_each_push_outcome items body this Hundef
                     ltac:(intros item; try destruct item; eexists; reflexivity))
           as [Hthrow|Hdone]
     end;
     [ rewrite Hthrow; eexists; reflexivity
     | rewrite Hdone; unfold bind, verts_length; rewrite Hundef; eexists; reflexivity ]).
Qed.

(** C5. When [vertices] and [uvs] differ in length, [addVertices] throws
    the error 'Mesh - vertices and uv count not equal' before any write:
    the Model, and with it [vertexCount] and the whole vertex buffer, is
    what it was. *)
Theorem addVertices_shape_mismatch this vertices uvs indicies colors alphas :
  length vertices <> length uvs ->
  addVertices vertices uvs indicies colors alphas this =
    (Throw (Error "Mesh - vertices and uv count not equal"), this) /\
  vertexCount (snd (addVertices vertices uvs indicies colors alphas this)) = vertexCount this /\
  vertexViewF32 (snd (addVertices vertices uvs indicies colors alphas this)) =
    vertexViewF32 this.
Proof.
  intros Hlen.
  assert (Hthrow : addVertices vertices uvs indicies colors alphas this =
                   (Throw (Error "Mesh - vertices and uv count not equal"), this)).
  { unfold addVertices. destruct (Nat.eqb_spec (length vertices) (length uvs)) as [Heq|_].
    - contradiction.
    - reflexivity. }
  rewrite Hthrow. repeat split.
Qed.

End Ingestion.

(** The constructor leaves [this.vertices] undefined. *)
Lemma initialize_vertices_undefined (verticesCount : Z) (x y z : JS.prim) (this : SpecModel) :
  initialize verticesCount x y z = Normal this -> vertices_undefined this.
Proof.
  intros Hbuilt.
  destruct (initialize_built _ _ _ _ _ Hbuilt)
    as (_ & _ & _ & _ & _ & _ & _ & _ & _ & _ & _ & _ & _ & _ & _ & Hverts & _).
  exact Hverts.
Qed.

(** C2. [addVertices] never writes the packed buffer: whatever its
    arguments and outcome, [vertexCount] and every buffer slot are what
    they were.  On a newly built Model every call with arrays of equal
    length ends in a TypeError.  On a newly built Model for three vertices,
    [addVertices ([0,0,1,0,0,1], [0,0,1,0,0,1])] ends in a TypeError, with
    [vertexCount] 0 and [getFaceCount ()] 0; with the indices
    [0,2,1,2,3,1] over the four points of the 256 x 256 quad it ends the
    same way, with [vertexCount] 0. *)
Theorem addVertices_leaves_buffer :
  (forall (this : SpecModel) vertices uvs indicies colors alphas,
     let this' := snd (addVertices vertices uvs indicies colors alphas this) in
     vertexCount this' = vertexCount this /\
     vertexViewF32 this' = vertexViewF32 this) /\
  (forall verticesCount x y z (this : SpecModel) vertices uvs indicies colors alphas,
     initialize verticesCount x y z = Normal this ->
     length vertices = length uvs ->
     exists message,
       addVertices vertices uvs indicies colors alphas this =
         (Throw (TypeError message), this)) /\
  completion_map
    (fun this : SpecModel =>
       let outcome :=
         addVertices [0; 0; 1; 0; 0; 1]%float [0; 0; 1; 0; 0; 1]%float None
           JS.ArgUndefined JS.ArgUndefined this in
       (fst outcome, vertexCount (snd outcome), getFaceCount (snd outcome)))
    (initialize 3 JS.Undefined JS.Undefined JS.Undefined) =
    Normal
      (Throw (TypeError "Cannot read properties of undefined (reading 'push')"),
       0, 0%float) /\
  completion_map
    (fun this : SpecModel =>
       let outcome :=
         addVertices [-128; 128; 128; 128; -128; -128; 128; -128]%float
           [0; 1; 1; 1; 0; 0; 1; 0]%float (Some [0; 2; 1; 2; 3; 1])
           JS.ArgUndefined JS.ArgUndefined this in
       (fst outcome, vertexCount (snd outcome), getFaceCount (snd outcome)))
    (initialize 6 JS.Undefined JS.Undefined JS.Undefined) =
    Normal
      (Throw (TypeError "Cannot read properties of undefined (reading 'push')"),
       0, 0%float).
Proof.
  split; [|split; [|split]].
  - intros this vertices uvs indicies colors alphas.
    apply addVertices_keeps_buffer.
  - intros verticesCount x y z this vertices uvs indicies colors alphas Hbuilt Hlen.
    apply addVertices_without_vertices_array; [|exact Hlen].
    exact (initialize_vertices_undefined verticesCount x y z this Hbuilt).
  - vm_compute. reflexivity.
  - vm_compute. reflexivity.
Qed.

(** ** The recompute over the modelled Matrix4 *)

Section SpecRecompute.

Context {A : Type} `{AnimationState.Ops A}.

Implicit Types (this : Model SpecMatrix4.t A) (time delta : float).

(** C7, as amended. With position (1, 2, 3), the identity rotation
    (0, 0, 0, 1) and scale (1, 1, 1), a [preUpdate] that detects a change
    makes [transformMatrix] the translation by (1, 2, 3), and makes
    [normalMatrix] the transpose of the translation by (-1, -2, -3): its
    upper-left 3 x 3 block is the identity and its fourth row is
    (-1, -2, -3, 1). *)
Theorem preUpdate_translation this time delta :
  position this = Vector3.mk 1 2 3 ->
  rotation this = Quaternion.mk 0 0 0 1 ->
  scale this = Vector3.mk 1 1 1 ->
  fst (isDirty this) = true ->
  transformMatrix (preUpdate this time delta) = SpecMatrix4.translation 1 2 3 /\
  normalMatrix (preUpdate this time delta) =
    SpecMatrix4.mk 1 0 0 (-1)
                   0 1 0 (-2)
                   0 0 1 (-3)
                   0 0 0 1 /\
  normalMatrix (preUpdate this time delta) =
    SpecMatrix4.transpose (SpecMatrix4.translation (-1) (-2) (-3)).
Proof.
  intros Hposition Hrotation Hscale Hdirty.
  destruct (preUpdate_dirty this time delta Hdirty) as [Htransform Hnormal].
  rewrite Htransform, Hnormal, Hposition, Hrotation, Hscale.
  repeat split.
Qed.

End SpecRecompute.

(** ** The theorems at concrete Models *)

(** C4 at a Model for two vertices: the first vertex written is read back
    at index 0. *)
Lemma getVertex_addVertex_roundtrip_witness :
  exists this : SpecModel,
    initialize 2 JS.Undefined JS.Undefined JS.Undefined = Normal this /\
    0 <= vertexCount this /\
    8 * vertexCount this + 8 <= Z.of_nat (length (vertexViewF32 this)) /\
    (JS.is_float32 1.5 /\ JS.is_float32 (-2) /\ JS.is_float32 0.25 /\
     JS.is_float32 0.5 /\ JS.is_float32 0.75 /\ JS.is_float32 0 /\ JS.is_float32 1) /\
    getVertex (addVertex this 1.5 (-2) 0.25 0.5 0.75 0 0 1) (vertexCount this) =
      VertexObject.mk (JS.Num 1.5) (JS.Num (-2)) (JS.Num 0.25) (JS.Num 0.5) (JS.Num 0.75)
        (JS.Num 0) (JS.Num 0) (JS.Num 1) (JS.Num 1).
Proof.
  eexists. split; [reflexivity|].
  split; [discriminate|]. split; [discriminate|].
  split; [repeat split|].
  refine (proj2 (getVertex_addVertex_roundtrip _ 1.5 (-2) 0.25 0.5 0.75 0 0 1 _ _)
            _ _ _ _ _ _ _ _);
    first [discriminate | reflexivity].
Defined.

(** C10 at a Model for one vertex that already holds one. *)
Lemma addVertex_past_capacity_witness :
  exists this : SpecModel,
    completion_map (fun this => addVertex this 1 2 3 0 1 0 0 1)
      (initialize 1 JS.Undefined JS.Undefined JS.Undefined) = Normal this /\
    Z.of_nat (length (vertexViewF32 this)) <= 8 * vertexCount this /\
    vertexCount (addVertex this 4 5 6 1 0 0 0 1) = 2 /\
    vertexViewF32 (addVertex this 4 5 6 1 0 0 0 1) = vertexViewF32 this /\
    getVertex (addVertex this 4 5 6 1 0 0 0 1) 0 =
      VertexObject.mk (JS.Num 1) (JS.Num 2) (JS.Num 3) (JS.Num 0) (JS.Num 1)
        (JS.Num 0) (JS.Num 0) (JS.Num 1) (JS.Num 1).
Proof.
  eexists. split; [reflexivity|].
  match goal with
  | |- _ <= 8 * vertexCount ?this /\ _ =>
      destruct (addVertex_past_capacity this 4 5 6 1 0 0 0 1) as [Hcount [Hview Hread]]
  end.
  - discriminate.
  - split; [discriminate|].
    split; [exact Hcount|]. split; [exact Hview|].
    rewrite Hread. reflexivity.
Defined.

(** C3 at a newly built Model whose x is set from 0 to 5. *)
Lemma isDirty_snapshot_diff_witness :
  exists this : SpecModel,
    initialize 1 JS.Undefined JS.Undefined JS.Undefined = Normal this /\
    dirtyCache this = snapshot this /\
    observable this (SetX 5) = true /\
    has_nan (snapshot (mutate this (SetX 5))) = false /\
    fst (isDirty (mutate this (SetX 5))) = true /\
    fst (isDirty (snd (isDirty (mutate this (SetX 5))))) = false.
Proof.
  eexists. split; [reflexivity|].
  match goal with
  | |- dirtyCache ?this = _ /\ _ =>
      destruct (proj2 (proj2 (proj2 isDirty_snapshot_diff)) this (SetX 5) eq_refl eq_refl)
        as [Hfirst Hsecond]
  end.
  split; [reflexivity|]. split; [reflexivity|]. split; [reflexivity|].
  split; [exact Hfirst|]. apply Hsecond. reflexivity.
Defined.

(** C5 at one position pair against two UV pairs. *)
Lemma addVertices_shape_mismatch_witness :
  exists this : SpecModel,
    initialize 3 JS.Undefined JS.Undefined JS.Undefined = Normal this /\
    length [0; 0]%float <> length [0; 0; 1; 1]%float /\
    addVertices [0; 0]%float [0; 0; 1; 1]%float None JS.ArgUndefined JS.ArgUndefined this =
      (Throw (Error "Mesh - vertices and uv count not equal"), this).
Proof.
  eexists. split; [reflexivity|].
  split; [discriminate|].
  refine (proj1 (addVertices_shape_mismatch _ [0; 0]%float [0; 0; 1; 1]%float None
                   JS.ArgUndefined JS.ArgUndefined _)).
  discriminate.
Defined.

(** C6 at a newly built Model, before and after its x is set to 5. *)
Lemma preUpdate_recompute_gate_witness :
  exists this : SpecModel,
    initialize 1 JS.Undefined JS.Undefined JS.Undefined = Normal this /\
    (dirtyCache this = snapshot this /\
     has_nan (snapshot this) = false /\
     transformMatrix (preUpdate this 16 16) = transformMatrix this /\
     normalMatrix (preUpdate this 16 16) = normalMatrix this) /\
    (fst (isDirty (set_x this 5)) = true /\
     transformMatrix (preUpdate (set_x this 5) 16 16) = SpecMatrix4.translation 5 0 0 /\
     normalMatrix (preUpdate (set_x this 5) 16 16) =
       SpecMatrix4.transpose (SpecMatrix4.invert (SpecMatrix4.translation 5 0 0))).
Proof.
  eexists. split; [reflexivity|].
  match goal with
  | |- (dirtyCache ?this = _ /\ _) /\ _ =>
      pose proof (proj1 preUpdate_recompute_gate this 16%float 16%float eq_refl eq_refl)
        as Hclean;
      pose proof (proj2 (proj2 preUpdate_recompute_gate) (set_x this 5) 16%float 16%float
                    eq_refl) as Hdirty
  end.
  split.
  - split; [reflexivity|]. split; [reflexivity|]. exact Hclean.
  - split; [reflexivity|]. exact Hdirty.
Defined.

(** C7 at a newly built Model moved from the origin to (1, 2, 3). *)
Lemma preUpdate_translation_witness :
  exists this : SpecModel,
    completion_map (fun this => set_z (set_y (set_x this 1) 2) 3)
      (initialize 1 JS.Undefined JS.Undefined JS.Undefined) = Normal this /\
    position this = Vector3.mk 1 2 3 /\
    rotation this = Quaternion.mk 0 0 0 1 /\
    scale this = Vector3.mk 1 1 1 /\
    fst (isDirty this) = true /\
    transformMatrix (preUpdate this 16 16) = SpecMatrix4.translation 1 2 3 /\
    normalMatrix (preUpdate this 16 16) =
      SpecMatrix4.mk 1 0 0 (-1)
                     0 1 0 (-2)
                     0 0 1 (-3)
                     0 0 0 1.
Proof.
  eexists. split; [reflexivity|].
  match goal with
  | |- position ?this = _ /\ _ =>
      destruct (preUpdate_translation this 16%float 16%float eq_refl eq_refl eq_refl eq_refl)
        as [Htransform [Hnormal _]]
  end.
  do 4 (split; [reflexivity|]).
  split; [exact Htransform | exact Hnormal].
Defined.

(** C9 at a Model built at (1, 2, 3), with [new Quaternion()] the identity
    rotation: the first check returns false and the first tick leaves both
    matrices the identity. *)
Lemma initialize_starts_clean_witness :
  is_nan 1 = false /\ is_nan 2 = false /\ is_nan 3 = false /\
  cached_rotation_differs Quaternion.create = false /\
  exists this : SpecModel,
    initialize 4 (JS.Num 1) (JS.Num 2) (JS.Num 3) = Normal this /\
    dirtyCache this = mkDirtyCache 1 2 3 0 0 0 1 1 1 1 0 /\
    fst (isDirty this) = false /\
    transformMatrix (preUpdate this 16 16) = SpecMatrix4.identity /\
    normalMatrix (preUpdate this 16 16) = SpecMatrix4.identity.
Proof.
  repeat (split; [reflexivity|]).
  eexists. split; [reflexivity|].
  match goal with
  | |- dirtyCache ?this = _ /\ _ =>
      assert (Hbuilt : initialize 4 (JS.Num 1) (JS.Num 2) (JS.Num 3) = Normal this)
        by reflexivity;
      destruct (initialize_starts_clean 4 1 2 3 this Hbuilt eq_refl eq_refl eq_refl)
        as [Hcache [Hfirst [Hclean _]]]
  end.
  split; [exact Hcache|]. split; [apply Hfirst; reflexivity|].
  exact (Hclean eq_refl 16%float 16%float).
Defined.

(** ** Where the claims as first stated fail *)

(** C3. After [x] is set to NaN, [isDirty] returns true, and the [isDirty]
    that directly follows, with no write in between, returns true again;
    and after [x] is set from 0 to -0, [isDirty] returns false. *)
Lemma isDirty_nan_repeats :
  completion_map
    (fun this : SpecModel =>
       let this := set_x this nan in
       let first := isDirty this in
       let second := isDirty (snd first) in
       (fst first, fst second))
    (initialize 1 JS.Undefined JS.Undefined JS.Undefined) = Normal (true, true) /\
  completion_map
    (fun this : SpecModel => (get_x this, get_x (set_x this (-0)), fst (isDirty (set_x this (-0)))))
    (initialize 1 JS.Undefined JS.Undefined JS.Undefined) = Normal (0, -0, false)%float.
Proof. split; vm_compute; reflexivity. Qed.

(** C6. A Model whose x is NaN is checked by [isDirty]; nothing is written
    after that check, yet [preUpdate] replaces the identity
    [transformMatrix] by one whose entry 12 is NaN. *)
Lemma preUpdate_nan_rebuilds :
  exists this : SpecModel,
    completion_map (fun this => snd (isDirty (set_x this nan)))
      (initialize 1 JS.Undefined JS.Undefined JS.Undefined) = Normal this /\
    dirtyCache this = snapshot this /\
    transformMatrix this = SpecMatrix4.identity /\
    SpecMatrix4.m12 (transformMatrix this) = 0%float /\
    SpecMatrix4.m12 (transformMatrix (preUpdate this 16 16)) = nan.
Proof.
  eexists. split; [reflexivity|]. repeat split.
Qed.

(** C7. After the recompute at position (1, 2, 3), entries 3, 7 and 11 of
    [normalMatrix] are -1, -2 and -3, where the identity has 0. *)
Lemma preUpdate_translation_normal_not_identity :
  completion_map
    (fun this : SpecModel =>
       let normal := normalMatrix (preUpdate (set_z (set_y (set_x this 1) 2) 3) 16 16) in
       (SpecMatrix4.m3 normal, SpecMatrix4.m7 normal, SpecMatrix4.m11 normal))
    (initialize 1 JS.Undefined JS.Undefined JS.Undefined) = Normal (-1, -2, -3)%float /\
  (SpecMatrix4.m3 SpecMatrix4.identity, SpecMatrix4.m7 SpecMatrix4.identity,
   SpecMatrix4.m11 SpecMatrix4.identity) = (0, 0, 0)%float.
Proof. split; vm_compute; reflexivity. Qed.

(** C9. A Model built at x = NaN: the cache holds NaN in slot 0, and the
    first [isDirty], with no write since construction, returns true.  And a
    Model built at (1, 2, 3) where [new Quaternion()] yields (0, 0, 0, 0):
    the cache records w = 1 where the rotation has w = 0, the first
    [isDirty] returns true, and the first [preUpdate] replaces the identity
    [transformMatrix] by one whose entries 12, 13 and 14 are 1, 2 and 3. *)
Lemma initialize_nan_starts_dirty :
  completion_map
    (fun this : SpecModel => (is_nan (slot0 (dirtyCache this)), fst (isDirty this)))
    (initialize 1 (JS.Num nan) JS.Undefined JS.Undefined) = Normal (true, true) /\
  completion_map
    (fun this : SpecModel =>
       let transform := transformMatrix (preUpdate this 16 16) in
       (slot6 (dirtyCache this), Quaternion.w (rotation this), fst (isDirty this),
        transformMatrix this,
        (SpecMatrix4.m12 transform, SpecMatrix4.m13 transform, SpecMatrix4.m14 transform)))
    (initialize (NewQuaternion := zero_rotation) 1 (JS.Num 1) (JS.Num 2) (JS.Num 3))
  = Normal (1, 0, true, SpecMatrix4.identity, (1, 2, 3))%float.
Proof. split; vm_compute; reflexivity. Qed.

(** The modelled inverse on a matrix with exact entries. *)
Example invert_sample :
  let sample := SpecMatrix4.mk 2 0 0 0  0 0 4 0  0 (-1) 0 0  3 5 7 1 in
  SpecMatrix4.multiply sample (SpecMatrix4.invert sample) = SpecMatrix4.identity /\
  SpecMatrix4.multiply (SpecMatrix4.invert sample) sample = SpecMatrix4.identity.
Proof. split; vm_compute; reflexivity. Qed.

(** ** NaN in binary64 arithmetic *)

Section NaN.

Local Open Scope float_scope.

Lemma is_nan_eq (x : float) : is_nan x = true -> x = nan.
Proof.
  intros Hnan. apply Prim2SF_inj. unfold Prim2SF at 1. rewrite Hnan. reflexivity.
Qed.

Lemma sub_nan_l (x : float) : nan - x = nan.
Proof.
  apply Prim2SF_inj. rewrite sub_spec.
  change (Prim2SF nan) with S754_nan. reflexivity.
Qed.

Lemma sub_nan_r (x : float) : x - nan = nan.
Proof.
  apply Prim2SF_inj. rewrite sub_spec.
  change (Prim2SF nan) with S754_nan. destruct (Prim2SF x); reflexivity.
Qed.

Lemma mul_nan_l (x : float) : nan * x = nan.
Proof.
  apply Prim2SF_inj. rewrite mul_spec.
  change (Prim2SF nan) with S754_nan. reflexivity.
Qed.

Lemma mul_nan_r (x : float) : x * nan = nan.
Proof.
  apply Prim2SF_inj. rewrite mul_spec.
  change (Prim2SF nan) with S754_nan. destruct (Prim2SF x); reflexivity.
Qed.

Lemma strict_ne_nan_r (x : float) : JS.strict_ne x nan = true.
Proof.
  unfold JS.strict_ne. rewrite FloatAxioms.eqb_spec.
  change (Prim2SF nan) with S754_nan. destruct (Prim2SF x); reflexivity.
Qed.

End NaN.

(** ** Reading the buffer *)

Section Reading.

Context {M A : Type}.

Implicit Types (this : Model M A) (view : list float) (index i j : Z).

Lemma Float32Array_get_outside view i :
  i < 0 \/ Z.of_nat (length view) <= i ->
  Float32Array.get view i = JS.Undefined.
Proof.
  intros Hout. unfold Float32Array.get.
  destruct (Z.ltb_spec i 0) as [Hneg|Hpos]; [reflexivity|].
  rewrite lookup_ge_None_2 by lia. reflexivity.
Qed.

Lemma Float32Array_get_inside view i :
  0 <= i < Z.of_nat (length view) ->
  Float32Array.get view i = JS.Num (slot_at view i).
Proof.
  intros Hin. unfold Float32Array.get, slot_at.
  destruct (Z.ltb_spec i 0) as [Hneg|_]; [lia|].
  destruct (view !! Z.to_nat i) as [f|] eqn:Hlookup.
  - rewrite (nth_lookup_Some _ _ _ _ Hlookup). reflexivity.
  - apply lookup_ge_None_1 in Hlookup. lia.
Qed.

Lemma getVertex_outside_buffer this index :
  index < 0 \/ Z.of_nat (length (vertexViewF32 this)) <= 8 * index ->
  getVertex this index = undefined_vertex.
Proof.
  intros Hout. unfold getVertex, undefined_vertex.
  f_equal; apply Float32Array_get_outside; lia.
Qed.

Lemma getVertex_inside_buffer this index :
  0 <= index ->
  8 * index + 8 <= Z.of_nat (length (vertexViewF32 this)) ->
  let view := vertexViewF32 this in
  getVertex this index =
    {| VertexObject.x := JS.Num (slot_at view (8 * index));
       VertexObject.y := JS.Num (slot_at view (8 * index + 1));
       VertexObject.z := JS.Num (slot_at view (8 * index + 2));
       VertexObject.normalX := JS.Num (slot_at view (8 * index + 3));
       VertexObject.normalY := JS.Num (slot_at view (8 * index + 4));
       VertexObject.normalZ := JS.Num (slot_at view (8 * index + 5));
       VertexObject.u := JS.Num (slot_at view (8 * index + 6));
       VertexObject.v := JS.Num (slot_at view (8 * index + 7));
       VertexObject.alpha := JS.Num 1 |}.
Proof.
  intros Hlo Hhi view. unfold getVertex. fold view.
  f_equal;
    (rewrite Float32Array_get_inside by (subst view; lia); do 2 f_equal; lia).
Qed.

Lemma addVertex_vertexCount this (x y z u v normalX normalY normalZ : float) :
  vertexCount (addVertex this x y z u v normalX normalY normalZ) = vertexCount this + 1.
Proof. reflexivity. Qed.

Lemma addVertex_length this (x y z u v normalX normalY normalZ : float) :
  length (vertexViewF32 (addVertex this x y z u v normalX normalY normalZ)) =
  length (vertexViewF32 this).
Proof.
  unfold addVertex. cbn [vertexViewF32 with_vertexCount with_vertexViewF32].
  rewrite !Float32Array_length_set. reflexivity.
Qed.

Lemma getVertex_addVertex_same this (a : VertexArgs) :
  0 <= vertexCount this ->
  8 * vertexCount this + 8 <= Z.of_nat (length (vertexViewF32 this)) ->
  getVertex (addVertexArgs this a) (vertexCount this) = stored a.
Proof.
  intros Hlo Hhi. unfold addVertexArgs, getVertex, addVertex, stored.
  cbn [vertexViewF32 with_vertexCount with_vertexViewF32].
  f_equal; read_back.
Qed.

(** X2. [addVertex] writes only the eight slots of the vertex at
    [vertexCount]: every other vertex reads back as before, inside or
    outside the buffer; [vertexCount] grows by exactly 1, the buffer keeps
    its length, and position, scale, rotation, the dirty cache and both
    matrices are untouched. *)
Theorem addVertex_frame this (x y z u v normalX normalY normalZ : float) :
  let this' := addVertex this x y z u v normalX normalY normalZ in
  (forall index, index <> vertexCount this -> getVertex this' index = getVertex this index) /\
  vertexCount this' = vertexCount this + 1 /\
  length (vertexViewF32 this') = length (vertexViewF32 this) /\
  position this' = position this /\
  scale this' = scale this /\
  rotation this' = rotation this /\
  dirtyCache this' = dirtyCache this /\
  normalMatrix this' = normalMatrix this /\
  transformMatrix this' = transformMatrix this.
Proof.
  intros this'. split.
  - intros index Hother. subst this'. unfold getVertex, addVertex.
    cbn [vertexViewF32 with_vertexCount with_vertexViewF32].
    f_equal; repeat (rewrite Float32Array_get_set_other by lia); reflexivity.
  - split; [reflexivity|]. split; [apply addVertex_length|]. repeat split.
Qed.

Lemma getVertex_addVertex_other this (a : VertexArgs) index :
  index <> vertexCount this ->
  getVertex (addVertexArgs this a) index = getVertex this index.
Proof.
  intros Hother. unfold addVertexArgs, getVertex, addVertex.
  cbn [vertexViewF32 with_vertexCount with_vertexViewF32].
  f_equal; repeat (rewrite Float32Array_get_set_other by lia); reflexivity.
Qed.

Lemma addVertexAll_cons this (a : VertexArgs) (calls : list VertexArgs) :
  addVertexAll this (a :: calls) = addVertexAll (addVertexArgs this a) calls.
Proof. reflexivity. Qed.

Lemma addVertexAll_spec (calls : list VertexArgs) this :
  0 <= vertexCount this ->
  let this' := addVertexAll this calls in
  vertexCount this' = vertexCount this + Z.of_nat (length calls) /\
  length (vertexViewF32 this') = length (vertexViewF32 this) /\
  (forall (k : nat) a,
     calls !! k = Some a ->
     8 * (vertexCount this + Z.of_nat k) + 8 <= Z.of_nat (length (vertexViewF32 this)) ->
     getVertex this' (vertexCount this + Z.of_nat k) = stored a) /\
  (forall index,
     index < vertexCount this \/ vertexCount this + Z.of_nat (length calls) <= index ->
     getVertex this' index = getVertex this index).
Proof.
  revert this. induction calls as [|a calls IH]; intros this Hcount this'.
  - subst this'. cbn [addVertexAll fold_left length]. repeat split; try lia.
    intros k a Hlookup. rewrite lookup_nil in Hlookup. discriminate.
  - subst this'. rewrite addVertexAll_cons.
    assert (Hc1 : vertexCount (addVertexArgs this a) = vertexCount this + 1)
      by reflexivity.
    assert (Hl1 : length (vertexViewF32 (addVertexArgs this a)) =
                  length (vertexViewF32 this)) by apply addVertex_length.
    destruct (IH (addVertexArgs this a)) as [Hn [Hlen [Hstored Hframe]]]; [lia|].
    rewrite Hc1 in Hn, Hstored, Hframe. rewrite Hl1 in Hlen, Hstored.
    cbn [length]. split; [rewrite Hn; lia|]. split; [exact Hlen|]. split.
    + intros [|k] b Hlookup Hroom.
      * cbn in Hlookup. injection Hlookup as <-.
        rewrite Z.add_0_r in *. rewrite Hframe by lia.
        apply getVertex_addVertex_same; lia.
      * cbn in Hlookup.
        replace (vertexCount this + Z.of_nat (S k))
          with (vertexCount this + 1 + Z.of_nat k) by lia.
        apply (Hstored k b Hlookup). lia.
    + intros index Hout. rewrite Hframe by lia.
      apply getVertex_addVertex_other. lia.
Qed.

(** X3. A vertex that lies inside the buffer is decoded from the eight
    consecutive slots starting at [8 * index], in the order
    x, y, z, normalX, normalY, normalZ, u, v, whatever [vertexCount] is:
    an index at or past [vertexCount] is read like any other. *)
Theorem getVertex_layout this index :
  0 <= index ->
  8 * index + 8 <= Z.of_nat (length (vertexViewF32 this)) ->
  let view := vertexViewF32 this in
  getVertex this index =
    {| VertexObject.x := JS.Num (slot_at view (8 * index));
       VertexObject.y := JS.Num (slot_at view (8 * index + 1));
       VertexObject.z := JS.Num (slot_at view (8 * index + 2));
       VertexObject.normalX := JS.Num (slot_at view (8 * index + 3));
       VertexObject.normalY := JS.Num (slot_at view (8 * index + 4));
       VertexObject.normalZ := JS.Num (slot_at view (8 * index + 5));
       VertexObject.u := JS.Num (slot_at view (8 * index + 6));
       VertexObject.v := JS.Num (slot_at view (8 * index + 7));
       VertexObject.alpha := JS.Num 1 |} /\
  forall count, getVertex (with_vertexCount this count) index = getVertex this index.
Proof.
  intros Hlo Hhi view. split; [exact (getVertex_inside_buffer this index Hlo Hhi)|].
  intros count. reflexivity.
Qed.

(** X20. For a face whose three vertices lie inside the buffer,
    [isCounterClockwise] is the sign test [0 <= cross] on the x and y
    slots of the face: x at [24 * index], [24 * index + 8] and
    [24 * index + 16], y one slot after each. *)
Theorem getFace_from_buffer this index :
  0 <= index ->
  24 * index + 24 <= Z.of_nat (length (vertexViewF32 this)) ->
  let view := vertexViewF32 this in
  let x1 := slot_at view (24 * index) in
  let y1 := slot_at view (24 * index + 1) in
  let x2 := slot_at view (24 * index + 8) in
  let y2 := slot_at view (24 * index + 9) in
  let x3 := slot_at view (24 * index + 16) in
  let y3 := slot_at view (24 * index + 17) in
  FaceObject.isCounterClockwise (getFace this index) =
    (0 <=? (x2 - x1) * (y3 - y1) - (y2 - y1) * (x3 - x1))%float.
Proof.
  intros Hlo Hhi view x1 y1 x2 y2 x3 y3. unfold getFace.
  rewrite !getVertex_inside_buffer by lia.
  cbn [FaceObject.isCounterClockwise VertexObject.x VertexObject.y JS.to_number].
  subst x1 y1 x2 y2 x3 y3 view.
  repeat match goal with
         | |- context [slot_at ?v ?a] =>
             lazymatch a with
             | 24 * index => fail
             | 24 * index + _ => fail
             | _ => let b := fresh "offset" in
                    let Hb := fresh "Hoffset" in
                    remember a as b eqn:Hb in |- *;
                    first [ replace b with (24 * index) by lia
                          | replace b with (24 * index + 1) by lia
                          | replace b with (24 * index + 8) by lia
                          | replace b with (24 * index + 9) by lia
                          | replace b with (24 * index + 16) by lia
                          | replace b with (24 * index + 17) by lia ];
                    clear Hb
             end
         end.
  reflexivity.
Qed.

(** X1. [getVertex] performs no bounds check and never fails: at a
    negative index, or at an index whose first slot lies at or past the
    end of the buffer, it returns a vertex whose eight attributes are
    [undefined] and whose alpha is 1. *)
Theorem getVertex_outside this index :
  index < 0 \/ Z.of_nat (length (vertexViewF32 this)) <= 8 * index ->
  getVertex this index = undefined_vertex /\
  VertexObject.x (getVertex this index) = JS.Undefined /\
  VertexObject.alpha (getVertex this index) = JS.Num 1.
Proof.
  intros Hout. rewrite getVertex_outside_buffer by exact Hout. repeat split.
Qed.

(** X4. A run of [addVertex] calls from a Model with [vertexCount = c]:
    [vertexCount] ends at [c] plus the number of calls; the vertex of the
    [k]-th call reads back at index [c + k], rounded to binary32, whenever
    its eight slots lie inside the buffer; and every vertex outside
    [c .. c + calls) reads back as before the run. *)
Theorem addVertexAll_stores (calls : list VertexArgs) this :
  0 <= vertexCount this ->
  let this' := addVertexAll this calls in
  vertexCount this' = vertexCount this + Z.of_nat (length calls) /\
  length (vertexViewF32 this') = length (vertexViewF32 this) /\
  (forall (k : nat) a,
     calls !! k = Some a ->
     8 * (vertexCount this + Z.of_nat k) + 8 <= Z.of_nat (length (vertexViewF32 this)) ->
     getVertex this' (vertexCount this + Z.of_nat k) = stored a) /\
  (forall index,
     index < vertexCount this \/ vertexCount this + Z.of_nat (length calls) <= index ->
     getVertex this' index = getVertex this index).
Proof. intros Hcount. exact (addVertexAll_spec calls this Hcount). Qed.

(** X5. [getFace] never fails.  At a negative index, or when the last of
    its three vertices lies at or past the end of the buffer, the winding
    is computed from NaN coordinates and [isCounterClockwise] is false. *)
Theorem getFace_outside this index :
  index < 0 \/ Z.of_nat (length (vertexViewF32 this)) <= 8 * (3 * index + 2) ->
  FaceObject.isCounterClockwise (getFace this index) = false /\
  FaceObject.vertex3 (getFace this index) = FaceObject.Number 3.
Proof.
  intros Hout. split; [|reflexivity].
  unfold getFace. rewrite (getVertex_outside_buffer this (index * 3 + 2)) by lia.
  cbn [FaceObject.isCounterClockwise undefined_vertex VertexObject.x VertexObject.y
       JS.to_number].
  rewrite !sub_nan_l, !mul_nan_r, sub_nan_l. reflexivity.
Qed.

End Reading.

(** ** Construction and capacity *)

Section Construction.

Context {M A : Type} `{Matrix4.Ops M} `{AnimationState.Ops A} `{Quaternion.Default}
  `{ArrayBuffer.Limit}.

Implicit Types (this : Model M A) (verticesCount index : Z) (x y z : JS.prim).

Lemma Float32Array_get_make (slots : nat) (i : Z) :
  0 <= i < Z.of_nat slots ->
  Float32Array.get (Float32Array.make slots) i = JS.Num 0.
Proof.
  intros Hin. unfold Float32Array.get, Float32Array.make.
  destruct (Z.ltb_spec i 0) as [Hneg|_]; [lia|].
  rewrite lookup_replicate_2 by lia. reflexivity.
Qed.

Lemma initialize_normal verticesCount x y z this :
  initialize verticesCount x y z = Normal this ->
  0 <= verticesCount /\
  vertexCount this = 0 /\
  vertexViewF32 this = Float32Array.make (Z.to_nat (8 * verticesCount)).
Proof.
  intros Hbuilt.
  destruct (initialize_built _ _ _ _ _ Hbuilt) as (Haccepts & Hcount & Hview & _).
  apply ArrayBuffer_accepts_bounds in Haccepts.
  split; [lia|]. split; [exact Hcount|]. rewrite Hview.
  replace (verticesCount * 32) with (8 * verticesCount * 4) by lia.
  rewrite Z.div_mul by lia. reflexivity.
Qed.

Lemma initialize_throws verticesCount x y z :
  ArrayBuffer.accepts (verticesCount * 32) = false ->
  initialize (M := M) (A := A) verticesCount x y z =
    Throw (RangeError "Invalid array buffer length").
Proof.
  intros Hrejected. unfold initialize. rewrite Hrejected. reflexivity.
Qed.

Lemma initialize_returns verticesCount x y z :
  ArrayBuffer.accepts (verticesCount * 32) = true ->
  exists this, initialize (M := M) (A := A) verticesCount x y z = Normal this.
Proof.
  intros Haccepted. unfold initialize. rewrite Haccepted. eexists. reflexivity.
Qed.

(** X6. The constructor throws a RangeError when [verticesCount] is
    negative, when the byte length [32 * verticesCount] is more than
    2^53 - 1, and when it is more than the engine allocates for an
    ArrayBuffer.  For every other [verticesCount] it returns a Model with
    [vertexCount] 0, unit scale, no [vertices] or [faces] property, and a
    zeroed buffer for exactly [verticesCount] vertices: [getVertex] reads
    the zero vertex at every index in [0 .. verticesCount) and an
    all-[undefined] vertex at every other index.  Absent coordinates count
    as 0. *)
Theorem initialize_outcome verticesCount x y z :
  (verticesCount < 0 \/ 9007199254740991 < 32 * verticesCount \/
   ArrayBuffer.maxByteLength < 32 * verticesCount ->
   exists message,
     initialize (M := M) (A := A) verticesCount x y z = Throw (RangeError message)) /\
  (0 <= verticesCount /\ 32 * verticesCount <= 9007199254740991 /\
   32 * verticesCount <= ArrayBuffer.maxByteLength ->
   exists this,
     initialize verticesCount x y z = Normal this /\
     vertexCount this = 0 /\
     Z.of_nat (length (vertexViewF32 this)) = 8 * verticesCount /\
     scale this = Vector3.mk 1 1 1 /\
     vertices this = None /\ faces this = None /\
     (forall index, 0 <= index < verticesCount -> getVertex this index = flat_vertex 0 0) /\
     (forall index,
        index < 0 \/ verticesCount <= index -> getVertex this index = undefined_vertex)) /\
  initialize (M := M) (A := A) verticesCount JS.Undefined JS.Undefined JS.Undefined =
    initialize verticesCount (JS.Num 0) (JS.Num 0) (JS.Num 0).
Proof.
  split; [|split; [|reflexivity]].
  - intros Hrejected. eexists. apply initialize_throws.
    unfold ArrayBuffer.accepts. rewrite !andb_false_iff, !Z.leb_gt. lia.
  - intros Haccepted.
    destruct (initialize_returns verticesCount x y z) as [this Hbuilt].
    { unfold ArrayBuffer.accepts. rewrite !andb_true_iff, !Z.leb_le. lia. }
    exists this. split; [exact Hbuilt|].
    destruct (initialize_normal _ _ _ _ _ Hbuilt) as [_ [Hcount Hview]].
    assert (Hlen : Z.of_nat (length (vertexViewF32 this)) = 8 * verticesCount).
    { rewrite Hview. unfold Float32Array.make. rewrite length_replicate. lia. }
    split; [exact Hcount|]. split; [exact Hlen|].
    destruct (initialize_built _ _ _ _ _ Hbuilt)
      as (_ & _ & _ & _ & Hscale & _ & _ & _ & _ & _ & _ & _ & _ & _ & _ & Hverts & Hfaces).
    split; [exact Hscale|]. split; [exact Hverts|]. split; [exact Hfaces|].
    split.
    + intros index Hin. unfold getVertex, flat_vertex. rewrite Hview.
      f_equal; apply Float32Array_get_make; lia.
    + intros index Hout. apply getVertex_outside_buffer. lia.
Qed.

(** X7. A Model constructed for [verticesCount] vertices and filled by a
    run of [addVertex] calls holds exactly the first [verticesCount] of
    them: call [k] reads back at index [k] when [k < verticesCount]; the
    calls past the capacity are counted in [vertexCount] but stored
    nowhere; the indices not yet written read as the zero vertex and the
    indices at or past the capacity as all-[undefined]. *)
Theorem initialize_then_addVertexAll verticesCount x y z this (calls : list VertexArgs) :
  initialize verticesCount x y z = Normal this ->
  let this' := addVertexAll this calls in
  vertexCount this' = Z.of_nat (length calls) /\
  (forall (k : nat) a,
     calls !! k = Some a -> Z.of_nat k < verticesCount ->
     getVertex this' (Z.of_nat k) = stored a) /\
  (forall index,
     Z.of_nat (length calls) <= index < verticesCount ->
     getVertex this' index = flat_vertex 0 0) /\
  (forall index, verticesCount <= index -> getVertex this' index = undefined_vertex).
Proof.
  intros Hbuilt this'.
  destruct (initialize_normal _ _ _ _ _ Hbuilt) as [Hpos [Hcount Hview]].
  assert (Hlen : Z.of_nat (length (vertexViewF32 this)) = 8 * verticesCount).
  { rewrite Hview. unfold Float32Array.make. rewrite length_replicate. lia. }
  destruct (addVertexAll_spec calls this) as [Hn [Hlen' [Hstored Hframe]]]; [lia|].
  rewrite Hcount in Hn, Hstored, Hframe. cbn [Z.add] in Hn, Hstored, Hframe.
  split; [exact Hn|]. split; [|split].
  - intros k a Hlookup Hroom. apply (Hstored k a Hlookup). lia.
  - intros index Hin. subst this'. rewrite Hframe by lia.
    unfold getVertex, flat_vertex. rewrite Hview.
    f_equal; apply Float32Array_get_make; lia.
  - intros index Hout. apply getVertex_outside_buffer. subst this'. lia.
Qed.

End Construction.

(** ** More on the dirty check and the tick *)

Section Ticks.

Context {M A : Type} `{Matrix4.Ops M} `{AnimationState.Ops A}.

Implicit Types (this : Model M A) (time delta value : float).

Lemma has_nan_changed (cache now : DirtyCache) :
  has_nan now = true -> changed cache now.
Proof.
  unfold has_nan, changed. rewrite !orb_true_iff.
  intros Hnan.
  repeat match type of Hnan with
         | _ \/ _ => destruct Hnan as [Hnan|Hnan]
         end;
    apply is_nan_eq in Hnan; rewrite Hnan;
    pose proof strict_ne_nan_r as Hne; auto 12.
Qed.

Lemma isDirty_with_nan this :
  has_nan (snapshot this) = true -> fst (isDirty this) = true.
Proof. intros Hnan. apply isDirty_result. apply has_nan_changed. exact Hnan. Qed.

(** X8. While any position, rotation or scale component is NaN,
    [isDirty] returns true on every call, whatever the cache holds, and so
    every [preUpdate] rebuilds both matrices. *)
Theorem isDirty_nan_always this time delta :
  has_nan (snapshot this) = true ->
  fst (isDirty this) = true /\
  fst (isDirty (snd (isDirty this))) = true /\
  let transform :=
    Matrix4.scale
      (Matrix4.fromRotationTranslation (transformMatrix this) (rotation this) (position this))
      (scale this) in
  transformMatrix (preUpdate this time delta) = transform /\
  normalMatrix (preUpdate this time delta) =
    Matrix4.transpose (Matrix4.invert (Matrix4.copy (normalMatrix this) transform)).
Proof.
  intros Hnan. split; [apply isDirty_with_nan; exact Hnan|].
  split; [apply isDirty_with_nan; exact Hnan|].
  apply preUpdate_dirty. apply isDirty_with_nan. exact Hnan.
Qed.

Lemma preUpdate_snapshot this time delta :
  snapshot (preUpdate this time delta) = snapshot this /\
  dirtyCache (preUpdate this time delta) = snapshot this.
Proof.
  rewrite preUpdate_unfold. cbv zeta.
  destruct (fst (isDirty this)); split; reflexivity.
Qed.

(** X9. [preUpdate] writes only the animation state, the dirty cache and
    the two matrices: position, scale, rotation, [vertexCount], the vertex
    buffer and the [vertices] and [faces] properties are as before, and
    afterwards the cache holds the current tuple. *)
Theorem preUpdate_frame this time delta :
  let this' := preUpdate this time delta in
  position this' = position this /\
  scale this' = scale this /\
  rotation this' = rotation this /\
  vertexCount this' = vertexCount this /\
  vertexViewF32 this' = vertexViewF32 this /\
  vertices this' = vertices this /\
  faces this' = faces this /\
  anims this' = AnimationState.update (anims this) time delta /\
  dirtyCache this' = snapshot this'.
Proof.
  intros this'. subst this'. rewrite preUpdate_unfold. cbv zeta.
  destruct (fst (isDirty this)); repeat split.
Qed.

(** X10. Ticks with no write in between: when no position, rotation or
    scale component is NaN, a second [preUpdate] leaves both matrices as
    the first one left them. *)
Theorem preUpdate_twice this time delta time' delta' :
  has_nan (snapshot this) = false ->
  let once := preUpdate this time delta in
  transformMatrix (preUpdate once time' delta') = transformMatrix once /\
  normalMatrix (preUpdate once time' delta') = normalMatrix once.
Proof.
  intros Hnan once. apply preUpdate_clean.
  destruct (preUpdate_snapshot this time delta) as [Hsnap Hcache].
  rewrite isDirty_unchanged.
  - subst once. rewrite Hsnap. exact Hnan.
  - subst once. rewrite Hcache, Hsnap. reflexivity.
Qed.

(** X11. A direct [isDirty] call uses up the change it reports: when no
    position, rotation or scale component is NaN, the [preUpdate] that
    follows it rebuilds nothing, so both matrices stay as they were before
    the call even if the Model had been written since they were built. *)
Theorem isDirty_then_preUpdate this time delta :
  has_nan (snapshot this) = false ->
  transformMatrix (preUpdate (snd (isDirty this)) time delta) = transformMatrix this /\
  normalMatrix (preUpdate (snd (isDirty this)) time delta) = normalMatrix this.
Proof.
  intros Hnan.
  destruct (preUpdate_clean (snd (isDirty this)) time delta) as [Htransform Hnormal].
  - rewrite isDirty_twice. exact Hnan.
  - rewrite Htransform, Hnormal. split; reflexivity.
Qed.

End Ticks.

(** ** The accessors and the rotation shortcuts *)

Section Accessors.

Context {M A : Type}.

Implicit Types (this : Model M A) (value other : float).

(** X12. The six accessors are independent cells: each setter is read
    back by its getter and leaves the other five components as they were;
    setters of different components commute and a repeated setter keeps
    the last value; no setter touches the rotation, the vertex buffer,
    [vertexCount], the dirty cache or the matrices. *)
Theorem accessors_independent this value other :
  (get_x (set_x this value) = value /\ get_y (set_y this value) = value /\
   get_z (set_z this value) = value /\ get_scaleX (set_scaleX this value) = value /\
   get_scaleY (set_scaleY this value) = value /\
   get_scaleZ (set_scaleZ this value) = value) /\
  (forall set,
     In set [set_x; set_y; set_z; set_scaleX; set_scaleY; set_scaleZ] ->
     rotation (set this value) = rotation this /\
     vertexCount (set this value) = vertexCount this /\
     vertexViewF32 (set this value) = vertexViewF32 this /\
     dirtyCache (set this value) = dirtyCache this /\
     normalMatrix (set this value) = normalMatrix this /\
     transformMatrix (set this value) = transformMatrix this /\
     set (set this other) value = set this value) /\
  (forall set get,
     In (set, get)
       [(set_x, get_y); (set_x, get_z); (set_x, get_scaleX); (set_x, get_scaleY);
        (set_x, get_scaleZ);
        (set_y, get_x); (set_y, get_z); (set_y, get_scaleX); (set_y, get_scaleY);
        (set_y, get_scaleZ);
        (set_z, get_x); (set_z, get_y); (set_z, get_scaleX); (set_z, get_scaleY);
        (set_z, get_scaleZ);
        (set_scaleX, get_x); (set_scaleX, get_y); (set_scaleX, get_z);
        (set_scaleX, get_scaleY); (set_scaleX, get_scaleZ);
        (set_scaleY, get_x); (set_scaleY, get_y); (set_scaleY, get_z);
        (set_scaleY, get_scaleX); (set_scaleY, get_scaleZ);
        (set_scaleZ, get_x); (set_scaleZ, get_y); (set_scaleZ, get_z);
        (set_scaleZ, get_scaleX); (set_scaleZ, get_scaleY)] ->
     get (set this value) = get this) /\
  (forall first second,
     In (first, second)
       [(set_x, set_y); (set_x, set_z); (set_y, set_z);
        (set_x, set_scaleX); (set_x, set_scaleY); (set_x, set_scaleZ);
        (set_y, set_scaleX); (set_y, set_scaleY); (set_y, set_scaleZ);
        (set_z, set_scaleX); (set_z, set_scaleY); (set_z, set_scaleZ);
        (set_scaleX, set_scaleY); (set_scaleX, set_scaleZ); (set_scaleY, set_scaleZ)] ->
     first (second this other) value = second (first this value) other).
Proof.
  split; [repeat split|]. split; [|split].
  - intros set Hin. cbn [In] in Hin.
    repeat destruct Hin as [<-|Hin]; try contradiction; repeat split.
  - intros set get Hin. cbn [In] in Hin.
    repeat destruct Hin as [Heq|Hin]; try contradiction;
      injection Heq as <- <-; reflexivity.
  - intros first second Hin. cbn [In] in Hin.
    repeat destruct Hin as [Heq|Hin]; try contradiction;
      injection Heq as <- <-; reflexivity.
Qed.

End Accessors.

Section Detection.

Context {M A : Type} `{Rotation.Ops}.

Implicit Types (this : Model M A) (rad value : float).

Lemma has_nan_false (c : DirtyCache) :
  has_nan c = false ->
  is_nan (slot0 c) = false /\ is_nan (slot1 c) = false /\ is_nan (slot2 c) = false /\
  is_nan (slot7 c) = false /\ is_nan (slot8 c) = false /\ is_nan (slot9 c) = false.
Proof.
  unfold has_nan. rewrite !orb_false_iff. tauto.
Qed.

Lemma isDirty_with_rotation this (q : Quaternion.t) :
  dirtyCache this = snapshot this ->
  has_nan (snapshot this) = false ->
  fst (isDirty (with_rotation this q)) = observable this (SetRotation q).
Proof.
  intros Hcache Hnan.
  destruct (has_nan_false _ Hnan) as [Hpx [Hpy [Hpz [Hsx [Hsy Hsz]]]]].
  unfold isDirty. cbn [with_rotation dirtyCache position rotation scale vertexCount fst].
  rewrite Hcache. unfold snapshot in *.
  cbn [slot0 slot1 slot2 slot3 slot4 slot5 slot6 slot7 slot8 slot9 slot10 observable] in *.
  rewrite !strict_ne_self, Hpx, Hpy, Hpz, Hsx, Hsy, Hsz, Z.eqb_refl.
  cbn [negb orb]. rewrite !orb_false_r. reflexivity.
Qed.

(** X13. [rotateX], [rotateY] and [rotateZ] replace the rotation by what
    the quaternion method yields and touch nothing else, so both matrices
    are stale until the next tick.  From a cache that equals the current
    tuple, with no NaN component, the next [isDirty] returns true exactly
    when [!==] tells some component of the new quaternion apart from the
    old one. *)
Theorem rotate_detected this rad :
  forall rotate method,
    In (rotate, method)
      [(rotateX, Rotation.rotateX); (rotateY, Rotation.rotateY);
       (rotateZ, Rotation.rotateZ)] ->
    rotation (rotate this rad) = method (rotation this) rad /\
    position (rotate this rad) = position this /\
    scale (rotate this rad) = scale this /\
    vertexCount (rotate this rad) = vertexCount this /\
    vertexViewF32 (rotate this rad) = vertexViewF32 this /\
    dirtyCache (rotate this rad) = dirtyCache this /\
    normalMatrix (rotate this rad) = normalMatrix this /\
    transformMatrix (rotate this rad) = transformMatrix this /\
    (dirtyCache this = snapshot this ->
     has_nan (snapshot this) = false ->
     fst (isDirty (rotate this rad)) =
       observable this (SetRotation (method (rotation this) rad))).
Proof.
  intros rotate method Hin. cbn [In] in Hin.
  repeat destruct Hin as [Heq|Hin]; try contradiction;
    injection Heq as <- <-;
    (do 8 (split; [reflexivity|]));
    intros Hcache Hnan; apply isDirty_with_rotation; assumption.
Qed.

(** X14. The check compares values, not writes: from a cache that equals
    the current tuple, with no NaN component, an accessor write followed
    by a write of the value it replaced is not reported by the next
    [isDirty]. *)
Theorem write_and_restore_unseen this value :
  dirtyCache this = snapshot this ->
  has_nan (snapshot this) = false ->
  forall set get,
    In (set, get)
      [(set_x, get_x); (set_y, get_y); (set_z, get_z);
       (set_scaleX, get_scaleX); (set_scaleY, get_scaleY); (set_scaleZ, get_scaleZ)] ->
    fst (isDirty (set (set this value) (get this))) = false.
Proof.
  intros Hcache Hnan set get Hin. cbn [In] in Hin.
  repeat destruct Hin as [Heq|Hin]; try contradiction;
    injection Heq as <- <-;
    (rewrite isDirty_unchanged;
       [exact Hnan | transitivity (snapshot this); [exact Hcache | reflexivity]]).
Qed.

End Detection.

(** ** [addVertices] on a Model that has [vertices] and [faces] arrays *)

Section Arrays.

Context {M A : Type}.

Implicit Types (this : Model M A) (positions uvs : list float)
  (indicies : option (list Z)) (colors alphas : JS.arg)
  (verts : list Vertex.t) (fs : list Face.t).

Lemma map_imap {T U V} (g : U -> V) (f : nat -> T -> U) (l : list T) :
  map g (imap f l) = imap (fun i item => g (f i item)) l.
Proof.
  revert f. induction l as [|item l IH]; intros f; [reflexivity|].
  cbn [imap map]. f_equal. apply IH.
Qed.

Lemma pick_defaulted (a : JS.arg) (default : float) (emission : Z) :
  (if JS.isArray match a with JS.ArgUndefined => JS.ArgNumber default | _ => a end
   then JS.arg_get match a with JS.ArgUndefined => JS.ArgNumber default | _ => a end emission
   else JS.arg_value match a with JS.ArgUndefined => JS.ArgNumber default | _ => a end) =
  pick a default emission.
Proof. destruct a; reflexivity. Qed.

Lemma for_each_push_all {T} (items : list T) (body : T -> Eff (Model M A) unit)
  (f : T -> Vertex.t) this verts :
  vertices this = Some verts ->
  (forall item, body item = push_vert (f item)) ->
  for_each items body this = (Normal tt, with_vertices this (Some (verts ++ map f items))).
Proof.
  intros Hverts Hbody. revert this verts Hverts.
  induction items as [|item items IH]; intros this verts Hverts.
  - cbn [for_each map]. rewrite app_nil_r. unfold ret.
    destruct this; cbn in Hverts; subst; reflexivity.
  - cbn [for_each map]. unfold bind. rewrite Hbody. unfold push_vert at 1.
    rewrite Hverts.
    rewrite (IH (with_vertices this (Some (verts ++ [f item]))) (verts ++ [f item]))
      by reflexivity.
    rewrite <- app_assoc. reflexivity.
Qed.

Lemma for_each_push_faces_with (steps : list nat) (body : nat -> Eff (Model M A) unit)
  (g : nat -> Face.t) this verts fs :
  (forall step this' fs',
     vertices this' = Some verts ->
     faces this' = Some fs' ->
     body step this' = (Normal tt, with_faces this' (Some (fs' ++ [g step])))) ->
  vertices this = Some verts ->
  faces this = Some fs ->
  for_each steps body this = (Normal tt, with_faces this (Some (fs ++ map g steps))).
Proof.
  intros Hbody. revert this fs.
  induction steps as [|step steps IH]; intros this fs Hverts Hfaces.
  - cbn [for_each map]. rewrite app_nil_r. unfold ret.
    destruct this; cbn in Hfaces; subst; reflexivity.
  - cbn [for_each map]. unfold bind. rewrite (Hbody step this fs Hverts Hfaces).
    rewrite (IH (with_faces this (Some (fs ++ [g step]))) (fs ++ [g step]))
      by (try exact Hverts; reflexivity).
    rewrite <- app_assoc. reflexivity.
Qed.

Lemma for_each_push_faces (steps : list nat) this verts fs :
  vertices this = Some verts ->
  faces this = Some fs ->
  for_each steps
    (fun step =>
       let i := (step * 3)%nat in
       do vert1 <- verts_at i;
       do vert2 <- verts_at (i + 1)%nat;
       do vert3 <- verts_at (i + 2)%nat;
       let face := Face.mk vert1 vert2 vert3 in
       push_face face) this =
  (Normal tt,
   with_faces this
     (Some (fs ++ map (fun step =>
                         Face.mk (verts !! (step * 3)%nat) (verts !! (step * 3 + 1)%nat)
                           (verts !! (step * 3 + 2)%nat)) steps))).
Proof.
  apply for_each_push_faces_with.
  intros step this' fs' Hverts Hfaces. cbv zeta.
  unfold bind, verts_at, push_face.
  repeat (rewrite Hverts; cbv beta iota).
  rewrite Hfaces. reflexivity.
Qed.

(** The statements after the two emitting loops. *)
Lemma addVertices_after_emitting this verts positions uvs indicies colors alphas :
  vertices this = Some verts ->
  length positions = length uvs ->
  addVertices positions uvs indicies colors alphas this =
    bind verts_length
      (fun count =>
         for_each (seq 0 ((count + 2) / 3)%nat)
           (fun step =>
              let i := (step * 3)%nat in
              do vert1 <- verts_at i;
              do vert2 <- verts_at (i + 1)%nat;
              do vert3 <- verts_at (i + 2)%nat;
              let face := Face.mk vert1 vert2 vert3 in
              push_face face))
      (with_vertices this (Some (verts ++ emitted positions uvs indicies colors alphas))).
Proof.
  intros Hverts Hlen. unfold addVertices.
  destruct (Nat.eqb_spec (length positions) (length uvs)) as [_|Hne]; [|contradiction].
  cbn [negb]. unfold bind at 1.
  unfold emitted. destruct indicies as [[|entry entries]|].
  - rewrite (for_each_push_all _ _
               (fun step : nat =>
                  vertex_from positions uvs colors alphas (Z.of_nat step * 2) (Z.of_nat step))
               _ _ Hverts); [reflexivity|].
    intros step. unfold vertex_from. rewrite <- !pick_defaulted. reflexivity.
  - rewrite (for_each_push_all _ _
               (fun item : Z * Z =>
                  vertex_from positions uvs colors alphas (snd item * 2) (fst item))
               _ _ Hverts).
    + rewrite map_imap. reflexivity.
    + intros [i item]. unfold vertex_from. rewrite <- !pick_defaulted. reflexivity.
  - rewrite (for_each_push_all _ _
               (fun step : nat =>
                  vertex_from positions uvs colors alphas (Z.of_nat step * 2) (Z.of_nat step))
               _ _ Hverts); [reflexivity|].
    intros step. unfold vertex_from. rewrite <- !pick_defaulted. reflexivity.
Qed.

Lemma addVertices_arrays this verts fs positions uvs indicies colors alphas :
  vertices this = Some verts ->
  faces this = Some fs ->
  length positions = length uvs ->
  let all := verts ++ emitted positions uvs indicies colors alphas in
  addVertices positions uvs indicies colors alphas this =
    (Normal tt, with_faces (with_vertices this (Some all)) (Some (fs ++ grouped all))).
Proof.
  intros Hverts Hfaces Hlen all.
  rewrite (addVertices_after_emitting _ _ _ _ _ _ _ Hverts Hlen). fold all.
  unfold bind at 1, verts_length. cbn [vertices with_vertices].
  rewrite (for_each_push_faces _ (with_vertices this (Some all)) all fs)
    by (try exact Hfaces; reflexivity).
  reflexivity.
Qed.

Lemma lookup_map {T U} (f : T -> U) (l : list T) (i : nat) :
  map f l !! i = option_map f (l !! i).
Proof.
  revert i. induction l as [|item l IH]; intros [|i]; cbn; try reflexivity. apply IH.
Qed.

Lemma lookup_grouped verts (step : nat) :
  (step < (length verts + 2) / 3)%nat ->
  grouped verts !! step =
    Some (Face.mk (verts !! (step * 3)%nat) (verts !! (step * 3 + 1)%nat)
            (verts !! (step * 3 + 2)%nat)).
Proof.
  intros Hstep. unfold grouped. rewrite lookup_map, lookup_seq_lt by exact Hstep.
  reflexivity.
Qed.

Lemma length_grouped verts : length (grouped verts) = ((length verts + 2) / 3)%nat.
Proof. unfold grouped. rewrite length_map, length_seq. reflexivity. Qed.

(** X15. On a Model that has [vertices] and [faces] arrays, a call with
    arrays of equal length and a non-empty index array returns normally
    and appends one Vertex per index, in index order: the vertex for index
    [entry] takes its position and UV from the pairs at [2 * entry], has
    z = 0, and takes its colour and alpha from the emission position (the
    defaults 0xffffff and 1, the single value, or the array entry,
    [undefined] past the array's end).  The packed buffer is untouched. *)
Theorem addVertices_indexed this verts fs positions uvs (entries : list Z) colors alphas :
  vertices this = Some verts ->
  faces this = Some fs ->
  length positions = length uvs ->
  entries <> [] ->
  exists this' new,
    addVertices positions uvs (Some entries) colors alphas this = (Normal tt, this') /\
    vertices this' = Some (verts ++ new) /\
    length new = length entries /\
    (forall (i : nat) entry,
       entries !! i = Some entry ->
       new !! i =
         Some (Vertex.mk
                 (JS.array_get positions (entry * 2)) (JS.array_get positions (entry * 2 + 1))
                 (JS.Num 0)
                 (JS.array_get uvs (entry * 2)) (JS.array_get uvs (entry * 2 + 1))
                 (pick colors 16777215 (Z.of_nat i)) (pick alphas 1 (Z.of_nat i)))) /\
    vertexCount this' = vertexCount this /\
    vertexViewF32 this' = vertexViewF32 this.
Proof.
  intros Hverts Hfaces Hlen Hentries.
  eexists. exists (emitted positions uvs (Some entries) colors alphas).
  split; [apply (addVertices_arrays _ _ _ _ _ _ _ _ Hverts Hfaces Hlen)|].
  split; [reflexivity|].
  destruct entries as [|entry0 entries0]; [contradiction|].
  split; [unfold emitted; rewrite length_imap; reflexivity|].
  split; [|split; reflexivity].
  intros i entry Hlookup. unfold emitted.
  rewrite list_lookup_imap, Hlookup. reflexivity.
Qed.

(** X16. On a Model that has [vertices] and [faces] arrays, a call with
    arrays of equal length [n] and no index array (or an empty one)
    returns normally and appends one Vertex per started pair, in array
    order: [(n + 1) / 2] vertices, the [k]-th from the pairs at [2 * k].
    When [n] is odd the last vertex has [undefined] for y and v. *)
Theorem addVertices_pairs this verts fs positions uvs indicies colors alphas :
  vertices this = Some verts ->
  faces this = Some fs ->
  length positions = length uvs ->
  indicies = None \/ indicies = Some [] ->
  exists this' new,
    addVertices positions uvs indicies colors alphas this = (Normal tt, this') /\
    vertices this' = Some (verts ++ new) /\
    length new = ((length positions + 1) / 2)%nat /\
    (forall k : nat,
       (k * 2 < length positions)%nat ->
       new !! k =
         Some (Vertex.mk
                 (JS.array_get positions (Z.of_nat k * 2))
                 (JS.array_get positions (Z.of_nat k * 2 + 1))
                 (JS.Num 0)
                 (JS.array_get uvs (Z.of_nat k * 2)) (JS.array_get uvs (Z.of_nat k * 2 + 1))
                 (pick colors 16777215 (Z.of_nat k)) (pick alphas 1 (Z.of_nat k)))) /\
    (forall k : nat,
       (k * 2 + 1 = length positions)%nat ->
       JS.array_get positions (Z.of_nat k * 2 + 1) = JS.Undefined /\
       JS.array_get uvs (Z.of_nat k * 2 + 1) = JS.Undefined).
Proof.
  intros Hverts Hfaces Hlen Hnone.
  eexists. exists (emitted positions uvs indicies colors alphas).
  split; [apply (addVertices_arrays _ _ _ _ _ _ _ _ Hverts Hfaces Hlen)|].
  split; [reflexivity|].
  assert (Hemitted :
    emitted positions uvs indicies colors alphas =
    map (fun step =>
           vertex_from positions uvs colors alphas (Z.of_nat step * 2) (Z.of_nat step))
      (seq 0 ((length positions + 1) / 2)%nat)).
  { destruct Hnone as [->| ->]; reflexivity. }
  rewrite Hemitted. split; [rewrite length_map, length_seq; reflexivity|].
  split.
  - intros k Hk. rewrite lookup_map, lookup_seq_lt; [reflexivity|].
    apply Nat.div_le_lower_bound; lia.
  - intros k Hk. unfold JS.array_get.
    destruct (Z.ltb_spec (Z.of_nat k * 2 + 1) 0) as [Hneg|_]; [lia|].
    rewrite !lookup_ge_None_2 by lia. split; reflexivity.
Qed.

(** X17. After the vertices are appended, the face loop runs over the
    whole [vertices] array from index 0, not over the new vertices only:
    it appends [(total + 2) / 3] faces, face [step] holding the vertices
    at [3 * step], [3 * step + 1] and [3 * step + 2], with [undefined]
    where the array ends inside the last window. *)
Theorem addVertices_regroups_all this verts fs positions uvs indicies colors alphas :
  vertices this = Some verts ->
  faces this = Some fs ->
  length positions = length uvs ->
  exists this' all added,
    addVertices positions uvs indicies colors alphas this = (Normal tt, this') /\
    vertices this' = Some all /\
    (exists new, all = verts ++ new) /\
    faces this' = Some (fs ++ added) /\
    length added = ((length all + 2) / 3)%nat /\
    (forall step : nat,
       (step < (length all + 2) / 3)%nat ->
       added !! step =
         Some (Face.mk (all !! (step * 3)%nat) (all !! (step * 3 + 1)%nat)
                 (all !! (step * 3 + 2)%nat))) /\
    (forall step : nat,
       (length all = step * 3 + 1)%nat ->
       added !! step = Some (Face.mk (all !! (step * 3)%nat) None None)).
Proof.
  intros Hverts Hfaces Hlen.
  eexists. exists (verts ++ emitted positions uvs indicies colors alphas).
  exists (grouped (verts ++ emitted positions uvs indicies colors alphas)).
  split; [apply (addVertices_arrays _ _ _ _ _ _ _ _ Hverts Hfaces Hlen)|].
  split; [reflexivity|]. split; [eexists; reflexivity|]. split; [reflexivity|].
  split; [apply length_grouped|]. split.
  - intros step Hstep. apply lookup_grouped. exact Hstep.
  - intros step Htail. rewrite lookup_grouped.
    + rewrite !(lookup_ge_None_2 _ (step * 3 + _)%nat) by lia. reflexivity.
    + rewrite Htail. apply Nat.div_le_lower_bound; lia.
Qed.

(** X18. Two calls in a row on a Model whose [vertices] and [faces] arrays
    start empty: the second call appends faces for the first call's
    vertices again.  With [e1] and [e2] the vertices the two calls emit,
    [faces] ends as the faces over [e1] followed by the faces over
    [e1 ++ e2], and every complete face of the first batch occurs a second
    time at the same place in the second batch. *)
Theorem addVertices_twice_duplicates this positions uvs indicies colors alphas
  positions' uvs' indicies' colors' alphas' :
  vertices this = Some [] ->
  faces this = Some [] ->
  length positions = length uvs ->
  length positions' = length uvs' ->
  let e1 := emitted positions uvs indicies colors alphas in
  let e2 := emitted positions' uvs' indicies' colors' alphas' in
  exists this1 this2,
    addVertices positions uvs indicies colors alphas this = (Normal tt, this1) /\
    addVertices positions' uvs' indicies' colors' alphas' this1 = (Normal tt, this2) /\
    vertices this2 = Some (e1 ++ e2) /\
    faces this2 = Some (grouped e1 ++ grouped (e1 ++ e2)) /\
    (forall step : nat,
       (step * 3 + 2 < length e1)%nat ->
       grouped (e1 ++ e2) !! step = grouped e1 !! step /\
       is_Some (grouped e1 !! step)).
Proof.
  intros Hverts Hfaces Hlen Hlen' e1 e2.
  eexists. eexists.
  split; [apply (addVertices_arrays _ _ _ _ _ _ _ _ Hverts Hfaces Hlen)|].
  split; [apply addVertices_arrays; [reflexivity|reflexivity|exact Hlen']|].
  split; [reflexivity|]. split; [reflexivity|].
  intros step Hstep.
  assert (Hin1 : (step < (length e1 + 2) / 3)%nat)
    by (apply Nat.div_le_lower_bound; lia).
  assert (Hin2 : (step < (length (e1 ++ e2) + 2) / 3)%nat)
    by (rewrite length_app; apply Nat.div_le_lower_bound; lia).
  rewrite (lookup_grouped _ _ Hin1), (lookup_grouped _ _ Hin2).
  rewrite !lookup_app_l by lia. split; [reflexivity|eexists; reflexivity].
Qed.

(** X19. No roll-back: on a Model that has a [vertices] array but no
    [faces] property, a call that leaves [vertices] non-empty appends its
    vertices and then throws a TypeError at the first [faces.push]; the
    appended vertices stay. *)
Theorem addVertices_without_faces_array this verts positions uvs indicies colors alphas :
  vertices this = Some verts ->
  faces this = None ->
  length positions = length uvs ->
  verts ++ emitted positions uvs indicies colors alphas <> [] ->
  addVertices positions uvs indicies colors alphas this =
    (Throw (TypeError "Cannot read properties of undefined (reading 'push')"),
     with_vertices this (Some (verts ++ emitted positions uvs indicies colors alphas))).
Proof.
  intros Hverts Hfaces Hlen Hnonempty.
  rewrite (addVertices_after_emitting _ _ _ _ _ _ _ Hverts Hlen).
  set (all := verts ++ emitted positions uvs indicies colors alphas) in *.
  unfold bind at 1, verts_length. cbn [vertices with_vertices].
  destruct all as [|vert all']; [contradiction|].
  replace ((length (vert :: all') + 2) / 3)%nat with (S (length all' / 3)%nat).
  2:{ cbn [length]. replace (S (length all') + 2)%nat with (length all' + 1 * 3)%nat by lia.
      rewrite Nat.div_add by lia. lia. }
  cbn [seq for_each]. unfold bind at 1. cbv zeta.
  unfold bind at 1 2 3, verts_at, push_face. cbn [vertices faces with_vertices].
  rewrite Hfaces. reflexivity.
Qed.

End Arrays.

(** ** What [addVertices] and [addVertex] mean for the tick *)

Section Frames.

Context {M A : Type} `{Matrix4.Ops M} `{AnimationState.Ops A}.

Implicit Types (this : Model M A) (positions uvs : list float)
  (indicies : option (list Z)) (colors alphas : JS.arg) (time delta : float).

Lemma only_arrays_ret {T} (v : T) : only_arrays (ret (S := Model M A) v).
Proof.
  intros this. exists (vertices this), (faces this). destruct this; reflexivity.
Qed.

Lemma only_arrays_throw {T} (e : exn) : only_arrays (throw (S := Model M A) (T := T) e).
Proof.
  intros this. exists (vertices this), (faces this). destruct this; reflexivity.
Qed.

Lemma only_arrays_bind {T U} (c : Eff (Model M A) T) (k : T -> Eff (Model M A) U) :
  only_arrays c -> (forall v, only_arrays (k v)) -> only_arrays (bind c k).
Proof.
  intros Hc Hk this. unfold bind.
  destruct (Hc this) as [vs [fs Hstate]].
  destruct (c this) as [[v|e] this'] eqn:Hrun; cbn [snd] in Hstate.
  - destruct (Hk v this') as [vs' [fs' Hstate']].
    exists vs', fs'. rewrite Hstate', Hstate. reflexivity.
  - exists vs, fs. exact Hstate.
Qed.

Lemma only_arrays_for_each {T} (items : list T) (body : T -> Eff (Model M A) unit) :
  (forall item, only_arrays (body item)) -> only_arrays (for_each items body).
Proof.
  intros Hbody. induction items as [|item rest IH]; cbn [for_each].
  - apply only_arrays_ret.
  - apply only_arrays_bind; [apply Hbody | intros _; exact IH].
Qed.

Lemma only_arrays_push_vert (vert : Vertex.t) :
  only_arrays (push_vert (M := M) (A := A) vert).
Proof.
  intros this. destruct this. unfold push_vert. cbn [vertices].
  destruct vertices0 as [verts|];
    [exists (Some (verts ++ [vert])), faces0 | exists None, faces0]; reflexivity.
Qed.

Lemma only_arrays_verts_length : only_arrays (verts_length (M := M) (A := A)).
Proof.
  intros this. destruct this. unfold verts_length. cbn [vertices].
  destruct vertices0 as [verts|];
    [exists (Some verts), faces0 | exists None, faces0]; reflexivity.
Qed.

Lemma only_arrays_verts_at (i : nat) : only_arrays (verts_at (M := M) (A := A) i).
Proof.
  intros this. destruct this. unfold verts_at. cbn [vertices].
  destruct vertices0 as [verts|];
    [exists (Some verts), faces0 | exists None, faces0]; reflexivity.
Qed.

Lemma only_arrays_push_face (face : Face.t) :
  only_arrays (push_face (M := M) (A := A) face).
Proof.
  intros this. destruct this. unfold push_face. cbn [faces].
  destruct faces0 as [fs|];
    [exists vertices0, (Some (fs ++ [face])) | exists vertices0, None]; reflexivity.
Qed.

Lemma addVertices_only_arrays positions uvs indicies colors alphas :
  only_arrays (addVertices (M := M) (A := A) positions uvs indicies colors alphas).
Proof.
  unfold addVertices.
  destruct (negb (length positions =? length uvs)%nat); [apply only_arrays_throw|].
  apply only_arrays_bind.
  - destruct indicies as [[|entry rest]|];
      apply only_arrays_for_each; intros item;
      try destruct item; apply only_arrays_push_vert.
  - intros _. apply only_arrays_bind; [apply only_arrays_verts_length|].
    intros count. apply only_arrays_for_each. intros step.
    repeat (apply only_arrays_bind; [apply only_arrays_verts_at|intros ?]).
    apply only_arrays_push_face.
Qed.

(** X22. Whatever its arguments and outcome, [addVertices] writes no
    property other than [vertices] and [faces].  It is therefore invisible
    to the dirty check: [isDirty] answers after the call as it would have
    before it, and the next [preUpdate] yields the same two matrices. *)
Theorem addVertices_unseen_by_tick this positions uvs indicies colors alphas time delta :
  let this' := snd (addVertices positions uvs indicies colors alphas this) in
  (exists vs fs, this' = with_faces (with_vertices this vs) fs) /\
  position this' = position this /\
  scale this' = scale this /\
  rotation this' = rotation this /\
  dirtyCache this' = dirtyCache this /\
  fst (isDirty this') = fst (isDirty this) /\
  transformMatrix (preUpdate this' time delta) = transformMatrix (preUpdate this time delta) /\
  normalMatrix (preUpdate this' time delta) = normalMatrix (preUpdate this time delta).
Proof.
  intros this'.
  destruct (addVertices_only_arrays positions uvs indicies colors alphas this)
    as [vs [fs Hstate]].
  fold this' in Hstate. split; [exists vs, fs; exact Hstate|].
  clearbody this'. subst this'. do 4 (split; [reflexivity|]).
  split; [reflexivity|].
  rewrite !preUpdate_unfold. cbv zeta.
  change (fst (isDirty (with_faces (with_vertices this vs) fs)))
    with (fst (isDirty this)).
  destruct (fst (isDirty this)); split; reflexivity.
Qed.

(** X21. Appending a vertex makes the next tick rebuild both matrices
    although position, rotation and scale are unchanged: when the cached
    vertex count is the current one, [isDirty] returns true after
    [addVertex], and [preUpdate] recomputes the matrices from the same
    rotation, position and scale. *)
Theorem addVertex_forces_rebuild this (x y z u v normalX normalY normalZ : float) time delta :
  slot10 (dirtyCache this) = vertexCount this ->
  let this' := addVertex this x y z u v normalX normalY normalZ in
  let transform :=
    Matrix4.scale
      (Matrix4.fromRotationTranslation (transformMatrix this) (rotation this) (position this))
      (scale this) in
  fst (isDirty this') = true /\
  transformMatrix (preUpdate this' time delta) = transform /\
  normalMatrix (preUpdate this' time delta) =
    Matrix4.transpose (Matrix4.invert (Matrix4.copy (normalMatrix this) transform)).
Proof.
  intros Hcount this' transform.
  assert (Hdirty : fst (isDirty this') = true).
  { apply isDirty_result. unfold changed. do 10 right.
    subst this'. unfold addVertex.
    cbn [dirtyCache snapshot slot10 vertexCount with_vertexCount with_vertexViewF32].
    lia. }
  split; [exact Hdirty|].
  exact (preUpdate_dirty this' time delta Hdirty).
Qed.

End Frames.

(** ** The further theorems at concrete Models *)

(** X1 at index 3 of a Model for three vertices. *)
Lemma getVertex_outside_witness :
  exists this : SpecModel,
    triangle 0 0 1 0 0 1 = Normal this /\
    (3 < 0 \/ Z.of_nat (length (vertexViewF32 this)) <= 8 * 3) /\
    getVertex this 3 = undefined_vertex.
Proof.
  eexists. split; [reflexivity|].
  split; [right; discriminate|].
  refine (proj1 (getVertex_outside _ 3 _)). right. discriminate.
Defined.

(** X3 at the second vertex of the triangle (0,0), (1,0), (0,1). *)
Lemma getVertex_layout_witness :
  exists this : SpecModel,
    triangle 0 0 1 0 0 1 = Normal this /\
    0 <= 1 /\
    8 * 1 + 8 <= Z.of_nat (length (vertexViewF32 this)) /\
    getVertex this 1 = flat_vertex 1 0 /\
    slot_at (vertexViewF32 this) 8 = 1%float.
Proof.
  eexists. split; [reflexivity|].
  split; [discriminate|]. split; [discriminate|].
  match goal with
  | |- getVertex ?this 1 = _ /\ _ =>
      pose proof (proj1 (getVertex_layout this 1 ltac:(discriminate) ltac:(discriminate)))
        as Hlayout
  end.
  split; [rewrite Hlayout; reflexivity | reflexivity].
Defined.

(** X20 at the triangle (0,0), (1,0), (0,1). *)
Lemma getFace_from_buffer_witness :
  exists this : SpecModel,
    triangle 0 0 1 0 0 1 = Normal this /\
    0 <= 0 /\
    24 * 0 + 24 <= Z.of_nat (length (vertexViewF32 this)) /\
    FaceObject.isCounterClockwise (getFace this 0) = true.
Proof.
  eexists. split; [reflexivity|].
  split; [discriminate|]. split; [discriminate|].
  match goal with
  | |- FaceObject.isCounterClockwise (getFace ?this 0) = _ =>
      rewrite (getFace_from_buffer this 0 ltac:(discriminate) ltac:(discriminate))
  end.
  reflexivity.
Defined.

(** X5 at face 1 of a Model for three vertices. *)
Lemma getFace_outside_witness :
  exists this : SpecModel,
    triangle 0 0 1 0 0 1 = Normal this /\
    (1 < 0 \/ Z.of_nat (length (vertexViewF32 this)) <= 8 * (3 * 1 + 2)) /\
    FaceObject.isCounterClockwise (getFace this 1) = false.
Proof.
  eexists. split; [reflexivity|].
  split; [right; discriminate|].
  refine (proj1 (getFace_outside _ 1 _)). right. discriminate.
Defined.

(** X4 at two calls on a Model for two vertices that holds none. *)
Lemma addVertexAll_stores_witness :
  exists this : SpecModel,
    initialize 2 JS.Undefined JS.Undefined JS.Undefined = Normal this /\
    0 <= vertexCount this /\
    let calls := [mkVertexArgs 1 2 3 0 1 0 0 1; mkVertexArgs 4 5 6 1 0 0 0 1] in
    vertexCount (addVertexAll this calls) = 2 /\
    getVertex (addVertexAll this calls) 1 =
      VertexObject.mk (JS.Num 4) (JS.Num 5) (JS.Num 6) (JS.Num 1) (JS.Num 0)
        (JS.Num 0) (JS.Num 0) (JS.Num 1) (JS.Num 1).
Proof.
  eexists. split; [reflexivity|].
  split; [discriminate|]. intros calls.
  match goal with
  | |- vertexCount (addVertexAll ?this calls) = _ /\ _ =>
      destruct (addVertexAll_stores calls this ltac:(discriminate))
        as [Hcount [_ [Hstored _]]]
  end.
  split; [exact Hcount|].
  exact (Hstored 1%nat (mkVertexArgs 4 5 6 1 0 0 0 1) eq_refl ltac:(discriminate)).
Defined.

(** X6 under a limit of 2 GiB - 1: at -1, at 2^50 and at 2^26 vertices
    the constructor throws; at 2 vertices it returns a Model. *)
Lemma initialize_outcome_witness :
  (exists message,
     initialize (M := SpecMatrix4.t) (A := unit) (-1) JS.Undefined JS.Undefined JS.Undefined =
       Throw (RangeError message)) /\
  (exists message,
     initialize (M := SpecMatrix4.t) (A := unit) 1125899906842624
       JS.Undefined JS.Undefined JS.Undefined = Throw (RangeError message)) /\
  (exists message,
     initialize (M := SpecMatrix4.t) (A := unit) 67108864
       JS.Undefined JS.Undefined JS.Undefined = Throw (RangeError message)) /\
  (exists this : SpecModel,
     initialize 2 (JS.Num 5) JS.Undefined JS.Undefined = Normal this /\
     Z.of_nat (length (vertexViewF32 this)) = 16 /\
     getVertex this 1 = flat_vertex 0 0 /\
     getVertex this 2 = undefined_vertex).
Proof.
  split; [|split; [|split]].
  - exact (proj1 (initialize_outcome (-1) JS.Undefined JS.Undefined JS.Undefined)
             (or_introl eq_refl)).
  - exact (proj1 (initialize_outcome 1125899906842624 JS.Undefined JS.Undefined JS.Undefined)
             (or_intror (or_introl eq_refl))).
  - exact (proj1 (initialize_outcome 67108864 JS.Undefined JS.Undefined JS.Undefined)
             (or_intror (or_intror eq_refl))).
  - destruct (proj1 (proj2 (initialize_outcome (M := SpecMatrix4.t) (A := unit)
                              2 (JS.Num 5) JS.Undefined JS.Undefined))
                ltac:(repeat split; discriminate))
      as [this [Hbuilt [_ [Hlen [_ [_ [_ [Hzero Hout]]]]]]]].
    exists this. split; [exact Hbuilt|]. split; [exact Hlen|].
    split; [apply Hzero; split; [discriminate|reflexivity] | apply Hout; right; discriminate].
Defined.

(** X7 at three calls on a Model for two vertices: the third is counted
    and stored nowhere. *)
Lemma initialize_then_addVertexAll_witness :
  exists this : SpecModel,
    initialize 2 JS.Undefined JS.Undefined JS.Undefined = Normal this /\
    let calls :=
      [mkVertexArgs 1 2 3 0 1 0 0 1; mkVertexArgs 4 5 6 1 0 0 0 1;
       mkVertexArgs 7 8 9 1 1 0 0 1] in
    vertexCount (addVertexAll this calls) = 3 /\
    getVertex (addVertexAll this calls) 1 =
      VertexObject.mk (JS.Num 4) (JS.Num 5) (JS.Num 6) (JS.Num 1) (JS.Num 0)
        (JS.Num 0) (JS.Num 0) (JS.Num 1) (JS.Num 1) /\
    getVertex (addVertexAll this calls) 2 = undefined_vertex.
Proof.
  eexists. split; [reflexivity|]. intros calls.
  match goal with
  | |- vertexCount (addVertexAll ?this calls) = _ /\ _ =>
      assert (Hbuilt : initialize 2 JS.Undefined JS.Undefined JS.Undefined = Normal this)
        by reflexivity;
      destruct (initialize_then_addVertexAll 2 JS.Undefined JS.Undefined JS.Undefined
                  this calls Hbuilt) as [Hcount [Hstored [_ Hout]]]
  end.
  split; [exact Hcount|]. split.
  - exact (Hstored 1%nat (mkVertexArgs 4 5 6 1 0 0 0 1) eq_refl ltac:(reflexivity)).
  - apply Hout. discriminate.
Defined.

(** X8 at a Model whose x is NaN, checked twice and ticked. *)
Lemma isDirty_nan_always_witness :
  exists this : SpecModel,
    completion_map (fun this => set_x this nan)
      (initialize 1 JS.Undefined JS.Undefined JS.Undefined) = Normal this /\
    has_nan (snapshot this) = true /\
    fst (isDirty this) = true /\
    fst (isDirty (snd (isDirty this))) = true.
Proof.
  eexists. split; [reflexivity|]. split; [reflexivity|].
  match goal with
  | |- fst (isDirty ?this) = _ /\ _ =>
      destruct (isDirty_nan_always this 16%float 16%float eq_refl) as [Hfirst [Hsecond _]]
  end.
  split; [exact Hfirst | exact Hsecond].
Defined.

(** X10 at a Model moved to x = 5 and ticked twice. *)
Lemma preUpdate_twice_witness :
  exists this : SpecModel,
    completion_map (fun this => set_x this 5)
      (initialize 1 JS.Undefined JS.Undefined JS.Undefined) = Normal this /\
    has_nan (snapshot this) = false /\
    transformMatrix (preUpdate this 16 16) = SpecMatrix4.translation 5 0 0 /\
    transformMatrix (preUpdate (preUpdate this 16 16) 32 16) = SpecMatrix4.translation 5 0 0.
Proof.
  eexists. split; [reflexivity|]. split; [reflexivity|]. split; [reflexivity|].
  match goal with
  | |- transformMatrix (preUpdate (preUpdate ?this _ _) _ _) = _ =>
      rewrite (proj1 (preUpdate_twice this 16%float 16%float 32%float 16%float eq_refl))
  end.
  reflexivity.
Defined.

(** X11 at a Model moved to x = 5, checked by hand and then ticked: the
    transform matrix is still the identity. *)
Lemma isDirty_then_preUpdate_witness :
  exists this : SpecModel,
    completion_map (fun this => set_x this 5)
      (initialize 1 JS.Undefined JS.Undefined JS.Undefined) = Normal this /\
    has_nan (snapshot this) = false /\
    fst (isDirty this) = true /\
    transformMatrix (preUpdate (snd (isDirty this)) 16 16) = SpecMatrix4.identity.
Proof.
  eexists. split; [reflexivity|]. split; [reflexivity|]. split; [reflexivity|].
  match goal with
  | |- transformMatrix (preUpdate (snd (isDirty ?this)) _ _) = _ =>
      rewrite (proj1 (isDirty_then_preUpdate this 16%float 16%float eq_refl))
  end.
  reflexivity.
Defined.

(** X13 at a quarter turn about x of a newly built Model. *)
Lemma rotate_detected_witness :
  exists this : SpecModel,
    initialize 1 JS.Undefined JS.Undefined JS.Undefined = Normal this /\
    In (rotateX (M := SpecMatrix4.t) (A := unit), Rotation.rotateX)
      [(rotateX, Rotation.rotateX); (rotateY, Rotation.rotateY);
       (rotateZ, Rotation.rotateZ)] /\
    dirtyCache this = snapshot this /\
    has_nan (snapshot this) = false /\
    position (rotateX this 1.5) = position this /\
    fst (isDirty (rotateX this 1.5)) = true /\
    fst (isDirty (rotateX this 0)) = false.
Proof.
  eexists. split; [reflexivity|]. split; [left; reflexivity|].
  split; [reflexivity|]. split; [reflexivity|].
  match goal with
  | |- position (rotateX ?this _) = _ /\ _ =>
      pose proof (rotate_detected this 1.5%float rotateX Rotation.rotateX
                    (or_introl eq_refl)) as Hturn;
      pose proof (rotate_detected this 0%float rotateX Rotation.rotateX
                    (or_introl eq_refl)) as Hstill
  end.
  destruct Hturn as [_ [Hposition [_ [_ [_ [_ [_ [_ Hturn]]]]]]]].
  destruct Hstill as [_ [_ [_ [_ [_ [_ [_ [_ Hstill]]]]]]]].
  split; [exact Hposition|]. split.
  - rewrite (Hturn eq_refl eq_refl). reflexivity.
  - rewrite (Hstill eq_refl eq_refl). reflexivity.
Defined.

(** X14 at x written to 5 and back to 0. *)
Lemma write_and_restore_unseen_witness :
  exists this : SpecModel,
    initialize 1 JS.Undefined JS.Undefined JS.Undefined = Normal this /\
    dirtyCache this = snapshot this /\
    has_nan (snapshot this) = false /\
    fst (isDirty (set_x this 5)) = true /\
    fst (isDirty (set_x (set_x this 5) (get_x this))) = false.
Proof.
  eexists. split; [reflexivity|]. split; [reflexivity|]. split; [reflexivity|].
  split; [reflexivity|].
  match goal with
  | |- fst (isDirty (set_x (set_x ?this _) _)) = _ =>
      exact (write_and_restore_unseen this 5%float eq_refl eq_refl set_x get_x
               (or_introl eq_refl))
  end.
Defined.

(** X21 at a newly built Model. *)
Lemma addVertex_forces_rebuild_witness :
  exists this : SpecModel,
    initialize 1 (JS.Num 5) JS.Undefined JS.Undefined = Normal this /\
    slot10 (dirtyCache this) = vertexCount this /\
    fst (isDirty this) = false /\
    fst (isDirty (addVertex this 1 2 3 0 1 0 0 1)) = true /\
    transformMatrix (preUpdate (addVertex this 1 2 3 0 1 0 0 1) 16 16) =
      SpecMatrix4.translation 5 0 0.
Proof.
  eexists. split; [reflexivity|]. split; [reflexivity|]. split; [reflexivity|].
  match goal with
  | |- fst (isDirty (addVertex ?this _ _ _ _ _ _ _ _)) = _ /\ _ =>
      destruct (addVertex_forces_rebuild this 1 2 3 0 1 0 0 1 16%float 16%float eq_refl)
        as [Hdirty [Htransform _]]
  end.
  split; [exact Hdirty|]. rewrite Htransform. reflexivity.
Defined.

(** X15 at the 256 x 256 quad with the indices [0, 2, 1, 2, 3, 1]: six
    vertices in index order, the second from point 2. *)
Lemma addVertices_indexed_witness :
  exists this : SpecModel,
    with_empty_arrays 6 = Normal this /\
    vertices this = Some [] /\ faces this = Some [] /\
    let positions := [-128; 128; 128; 128; -128; -128; 128; -128]%float in
    let uvs := [0; 1; 1; 1; 0; 0; 1; 0]%float in
    let entries := [0; 2; 1; 2; 3; 1] in
    length positions = length uvs /\
    entries <> [] /\
    exists this' new,
      addVertices positions uvs (Some entries) JS.ArgUndefined JS.ArgUndefined this =
        (Normal tt, this') /\
      vertices this' = Some new /\
      length new = 6%nat /\
      new !! 1%nat =
        Some (Vertex.mk (JS.Num (-128)) (JS.Num (-128)) (JS.Num 0) (JS.Num 0) (JS.Num 0)
                (JS.Num 16777215) (JS.Num 1)) /\
      vertexCount this' = 0.
Proof.
  eexists. split; [reflexivity|]. split; [reflexivity|]. split; [reflexivity|].
  intros positions uvs entries. split; [reflexivity|]. split; [discriminate|].
  match goal with
  | |- exists this' new, addVertices _ _ _ _ _ ?this = _ /\ _ =>
      destruct (addVertices_indexed this [] [] positions uvs entries
                  JS.ArgUndefined JS.ArgUndefined eq_refl eq_refl eq_refl
                  ltac:(discriminate))
        as [this' [new [Hrun [Hverts [Hlen [Horder [Hcount _]]]]]]]
  end.
  exists this', new. split; [exact Hrun|]. split; [exact Hverts|].
  split; [exact Hlen|]. split; [exact (Horder 1%nat 2 eq_refl) | exact Hcount].
Defined.

(** X16 at three numbers with no index array: two vertices, the second
    with no y. *)
Lemma addVertices_pairs_witness :
  exists this : SpecModel,
    with_empty_arrays 3 = Normal this /\
    vertices this = Some [] /\ faces this = Some [] /\
    let positions := [10; 20; 30]%float in
    let uvs := [0; 1; 1]%float in
    length positions = length uvs /\
    (@None (list Z) = None \/ @None (list Z) = Some []) /\
    exists this' new,
      addVertices positions uvs None JS.ArgUndefined (JS.ArgArray [0.5%float]) this =
        (Normal tt, this') /\
      vertices this' = Some new /\
      length new = 2%nat /\
      new !! 1%nat =
        Some (Vertex.mk (JS.Num 30) JS.Undefined (JS.Num 0) (JS.Num 1) JS.Undefined
                (JS.Num 16777215) JS.Undefined).
Proof.
  eexists. split; [reflexivity|]. split; [reflexivity|]. split; [reflexivity|].
  intros positions uvs. split; [reflexivity|]. split; [left; reflexivity|].
  match goal with
  | |- exists this' new, addVertices _ _ _ _ _ ?this = _ /\ _ =>
      destruct (addVertices_pairs this [] [] positions uvs None
                  JS.ArgUndefined (JS.ArgArray [0.5%float]) eq_refl eq_refl eq_refl
                  (or_introl eq_refl))
        as [this' [new [Hrun [Hverts [Hlen [Horder _]]]]]]
  end.
  exists this', new. split; [exact Hrun|]. split; [exact Hverts|].
  split; [exact Hlen|]. exact (Horder 1%nat ltac:(cbn; lia)).
Defined.

(** X17 at four points with no index array: two faces, the second with
    one vertex. *)
Lemma addVertices_regroups_all_witness :
  exists this : SpecModel,
    with_empty_arrays 4 = Normal this /\
    vertices this = Some [] /\ faces this = Some [] /\
    let positions := [0; 0; 1; 0; 0; 1; 1; 1]%float in
    length positions = length positions /\
    exists this' all added,
      addVertices positions positions None JS.ArgUndefined JS.ArgUndefined this =
        (Normal tt, this') /\
      vertices this' = Some all /\
      faces this' = Some added /\
      length all = 4%nat /\
      length added = 2%nat /\
      added !! 1%nat = Some (Face.mk (all !! 3%nat) None None).
Proof.
  eexists. split; [reflexivity|]. split; [reflexivity|]. split; [reflexivity|].
  intros positions. split; [reflexivity|].
  match goal with
  | |- exists this' all added, addVertices _ _ _ _ _ ?this = _ /\ _ =>
      destruct (addVertices_regroups_all this [] [] positions positions None
                  JS.ArgUndefined JS.ArgUndefined eq_refl eq_refl eq_refl)
        as [this' [all [added [Hrun [Hverts [[new Hall] [Hfaces [Hlen [_ Htail]]]]]]]]]
  end.
  assert (Hfour : length all = 4%nat).
  { apply (f_equal snd) in Hrun. cbn [snd] in Hrun. rewrite <- Hrun in Hverts.
    vm_compute in Hverts. injection Hverts as <-. reflexivity. }
  exists this', all, added. split; [exact Hrun|]. split; [exact Hverts|].
  split; [exact Hfaces|]. split; [exact Hfour|].
  split; [rewrite Hlen, Hfour; reflexivity|].
  exact (Htail 1%nat Hfour).
Defined.

(** X18 at one triangle added twice: three faces, the first and the
    second the same. *)
Lemma addVertices_twice_duplicates_witness :
  exists this : SpecModel,
    with_empty_arrays 6 = Normal this /\
    vertices this = Some [] /\ faces this = Some [] /\
    let positions := [0; 0; 1; 0; 0; 1]%float in
    length positions = length positions /\
    exists this1 this2 fs,
      addVertices positions positions None JS.ArgUndefined JS.ArgUndefined this =
        (Normal tt, this1) /\
      addVertices positions positions None JS.ArgUndefined JS.ArgUndefined this1 =
        (Normal tt, this2) /\
      faces this2 = Some fs /\
      length fs = 3%nat /\
      fs !! 1%nat = fs !! 0%nat.
Proof.
  eexists. split; [reflexivity|]. split; [reflexivity|]. split; [reflexivity|].
  intros positions. split; [reflexivity|].
  match goal with
  | |- exists this1 this2 fs, addVertices _ _ _ _ _ ?this = _ /\ _ =>
      destruct (addVertices_twice_duplicates this positions positions None
                  JS.ArgUndefined JS.ArgUndefined positions positions None
                  JS.ArgUndefined JS.ArgUndefined eq_refl eq_refl eq_refl eq_refl)
        as [this1 [this2 [Hfirst [Hsecond [_ [Hfaces _]]]]]]
  end.
  exists this1, this2. eexists.
  split; [exact Hfirst|]. split; [exact Hsecond|]. split; [exact Hfaces|].
  split; reflexivity.
Defined.

(** X19 at one triangle on a Model given a [vertices] array only. *)
Lemma addVertices_without_faces_array_witness :
  exists this : SpecModel,
    completion_map (fun this => with_vertices this (Some []))
      (initialize 3 JS.Undefined JS.Undefined JS.Undefined) = Normal this /\
    vertices this = Some [] /\ faces this = None /\
    let positions := [0; 0; 1; 0; 0; 1]%float in
    length positions = length positions /\
    [] ++ emitted positions positions None JS.ArgUndefined JS.ArgUndefined <> [] /\
    exists this',
      addVertices positions positions None JS.ArgUndefined JS.ArgUndefined this =
        (Throw (TypeError "Cannot read properties of undefined (reading 'push')"), this') /\
      option_map (@length Vertex.t) (vertices this') = Some 3%nat.
Proof.
  eexists. split; [reflexivity|]. split; [reflexivity|]. split; [reflexivity|].
  intros positions. split; [reflexivity|]. split; [discriminate|].
  eexists. split.
  - match goal with
    | |- addVertices _ _ _ _ _ ?this = _ =>
        exact (addVertices_without_faces_array this [] positions positions None
                 JS.ArgUndefined JS.ArgUndefined eq_refl eq_refl eq_refl
                 ltac:(discriminate))
    end.
  - reflexivity.
Defined.
